(** * Announcements router: a shallow embedding and its properties

    Source: [src/backend/routers/announcements.py].

    The router is a handful of request handlers over two MongoDB
    collections.  Documents are Python dicts with string keys, so they
    are finite maps from strings to values; a collection is the list of
    its documents in natural order.  Handlers that write take the
    database and return it as they leave it, next to the value returned
    or the exception raised.

    Python strings are modelled by [string]: the list of their code
    units, compared lexicographically, which is the order Python's [<]
    gives on [str]. *)

From Stdlib Require Import ZArith String Ascii List Bool Lia DecimalString.
From Stdlib Require Import Sorting.Sorted Sorting.Permutation.
From stdpp Require Import gmap strings list fin_maps.

Open Scope string_scope.

(** ** Calendar dates

    [datetime.date] holds a year, a month and a day and is ordered
    lexicographically on that triple. *)

Record date := mkdate { year : Z; month : Z; day : Z }.

Definition date_compare (a b : date) : comparison :=
  match (year a ?= year b)%Z with
  | Eq => match (month a ?= month b)%Z with
          | Eq => (day a ?= day b)%Z
          | c => c
          end
  | c => c
  end.

(** [a > b] and [a >= b] on dates. *)
Definition date_gt (a b : date) : bool :=
  match date_compare a b with Gt => true | _ => false end.

Definition date_ge (a b : date) : bool :=
  match date_compare a b with Lt => false | _ => true end.

(** ** Exceptions and results *)

Inductive exn :=
| HTTPException (status_code : Z) (detail : string)
| TypeError
| AttributeError.

Inductive result (A : Type) :=
| Ok (a : A)
| Raise (e : exn).
Arguments Ok {A} a.
Arguments Raise {A} e.

(** Sequencing: the first exception raised ends the handler. *)
#[export] Instance result_bind : MBind result := fun A B k r =>
  match r with
  | Ok a => k a
  | Raise e => Raise e
  end.

(** The names the specification gives to the three HTTP failures. *)
Definition Unauthorized (detail : string) : exn := HTTPException 401 detail.
Definition BadRequest (detail : string) : exn := HTTPException 400 detail.
Definition NotFound (detail : string) : exn := HTTPException 404 detail.

(** ** What the router imports

    [bson.ObjectId] and [date.fromisoformat] are library code.  The
    router only relies on: an id type with equality, a fallible
    constructor from text ([None] stands for [InvalidId]), its [str],
    and a fallible ISO date parser ([None] stands for [ValueError]). *)

Class Drivers (ObjectId : Type) := {
  ObjectId_eq_dec :: EqDecision ObjectId;
  ObjectId_parse : string → option ObjectId;
  ObjectId_str : ObjectId → string;
  fromisoformat : string → option date;
}.

Section Router.
Context {ObjectId : Type} `{!Drivers ObjectId}.

(** ** Values and documents *)

Inductive Value :=
| VNone
| VInt (z : Z)
| VStr (s : string)
| VOid (o : ObjectId).

#[export] Instance Value_eq_dec : EqDecision Value.
Proof. solve_decision. Defined.

(** Python truthiness, as used by [if not d] and [if not teacher]. *)
Definition truthy (v : Value) : bool :=
  match v with
  | VNone => false
  | VInt z => negb (z =? 0)%Z
  | VStr s => negb (String.eqb s "")
  | VOid _ => true
  end.

(** [str(v)]. *)
Definition py_str (v : Value) : string :=
  match v with
  | VNone => "None"
  | VInt z => DecimalString.NilZero.string_of_int (Z.to_int z)
  | VStr s => s
  | VOid o => ObjectId_str o
  end.

(** [d.get(k)] and [d.get(k, dflt)]. *)
Definition get_default (k : string) (dflt : Value) (d : gmap string Value) : Value :=
  default dflt (d !! k).

Definition get (k : string) (d : gmap string Value) : Value :=
  get_default k VNone d.

(** An [Optional[str]] parameter as a value. *)
Definition of_optional (o : option string) : Value :=
  match o with
  | None => VNone
  | Some s => VStr s
  end.

(** [x < y] on values: defined within a type, [TypeError] across types
    and on [None].  Object ids compare as their twelve bytes do, which
    is the order of their hexadecimal text. *)
Definition py_lt (x y : Value) : result bool :=
  match x, y with
  | VInt a, VInt b => Ok (a <? b)%Z
  | VStr a, VStr b => Ok (String.ltb a b)
  | VOid a, VOid b => Ok (String.ltb (ObjectId_str a) (ObjectId_str b))
  | _, _ => Raise TypeError
  end.

(** ** [parse_date]

    A falsy argument gives [None]; otherwise the ISO parser runs inside
    [try], so a [ValueError] (bad text) or a [TypeError] (not a string)
    gives [None] as well. *)
Definition parse_date (d : Value) : option date :=
  if negb (truthy d) then None
  else match d with
       | VStr s => fromisoformat s
       | _ => None
       end.

(** [not x] and the truth of [x] for [x : Optional[date]]: a [date] is
    always truthy. *)
Definition is_none (x : option date) : bool :=
  match x with
  | None => true
  | Some _ => false
  end.

(** ** [serialize_ann] *)
Definition serialize_ann (ann : gmap string Value) : gmap string Value :=
  let out := delete "_id" ann in
  <["id" := VStr (py_str (get "_id" ann))]> out.

(** ** The collections

    Only the driver calls the router makes are modelled. *)

Definition matches_id (id : Value) (d : gmap string Value) : bool :=
  bool_decide (d !! "_id" = Some id).

(** [coll.find_one({"_id": id})]. *)
Definition find_one (id : Value) (coll : list (gmap string Value))
  : option (gmap string Value) :=
  List.find (matches_id id) coll.

(** [coll.insert_one(doc)]: the driver adds the generated [_id] to the
    dict it is given and stores it. *)
Definition insert_one (doc : gmap string Value) (fresh : ObjectId)
    (coll : list (gmap string Value))
  : gmap string Value * list (gmap string Value) :=
  let doc' := <["_id" := VOid fresh]> doc in
  (doc', (coll ++ [doc'])%list).

(** [coll.update_one({"_id": id}, {"$set": updates})]: the first match
    gets the fields of [updates]. *)
Fixpoint update_one (id : Value) (updates : gmap string Value)
    (coll : list (gmap string Value)) : list (gmap string Value) :=
  match coll with
  | [] => []
  | d :: rest =>
      if matches_id id d then (updates ∪ d) :: rest
      else d :: update_one id updates rest
  end.

(** [coll.delete_one({"_id": id})], with its [deleted_count]. *)
Fixpoint delete_one (id : Value) (coll : list (gmap string Value))
  : list (gmap string Value) * nat :=
  match coll with
  | [] => ([], 0)
  | d :: rest =>
      if matches_id id d then (rest, 1)
      else let '(rest', n) := delete_one id rest in (d :: rest', n)
  end.

(** [find().sort(field, 1)]: MongoDB compares across types by type rank
    (null or missing, then numbers, strings, object ids) and within a
    type by value.  The server leaves the order of ties open; here they
    keep their natural order. *)
Definition bson_rank (v : option Value) : Z :=
  match v with
  | None | Some VNone => 0
  | Some (VInt _) => 1
  | Some (VStr _) => 2
  | Some (VOid _) => 3
  end.

Definition bson_lt (x y : option Value) : bool :=
  match x, y with
  | Some (VInt a), Some (VInt b) => (a <? b)%Z
  | Some (VStr a), Some (VStr b) => String.ltb a b
  | Some (VOid a), Some (VOid b) => String.ltb (ObjectId_str a) (ObjectId_str b)
  | _, _ => (bson_rank x <? bson_rank y)%Z
  end.

Fixpoint bson_insert (field : string) (x : gmap string Value)
    (l : list (gmap string Value)) : list (gmap string Value) :=
  match l with
  | [] => [x]
  | y :: l' =>
      if bson_lt (y !! field) (x !! field) then y :: bson_insert field x l'
      else x :: l
  end.

Definition mongo_sort (field : string) (coll : list (gmap string Value))
  : list (gmap string Value) :=
  foldr (bson_insert field) [] coll.

(** ** [list.sort(key=...)]

    Python's sort is stable and only uses [<] on the keys; a comparison
    that raises aborts the sort.  Where no comparison raises, every
    stable sort returns the same list, so a stable insertion sort
    stands for it. *)
Fixpoint py_insert (key : gmap string Value → Value) (x : gmap string Value)
    (l : list (gmap string Value)) : result (list (gmap string Value)) :=
  match l with
  | [] => Ok [x]
  | y :: l' =>
      b ← py_lt (key y) (key x);
      if b : bool then (r ← py_insert key x l'; Ok (y :: r))
      else Ok (x :: l)
  end.

Fixpoint py_sort (key : gmap string Value → Value)
    (l : list (gmap string Value)) : result (list (gmap string Value)) :=
  match l with
  | [] => Ok []
  | x :: l' => s ← py_sort key l'; py_insert key x s
  end.

(** ** The database the handlers share *)

Record Database := mkDatabase {
  announcements_collection : list (gmap string Value);
  teachers_collection : list (gmap string Value);
}.

Definition with_announcements (db : Database) (anns : list (gmap string Value))
  : Database :=
  {| announcements_collection := anns;
     teachers_collection := teachers_collection db |}.

(** ** [list_announcements] *)
Definition list_announcements (db : Database) : list (gmap string Value) :=
  fold_left (fun anns ann => (anns ++ [serialize_ann ann])%list)
            (mongo_sort "expire_date" (announcements_collection db)) [].

(** ** [list_active_announcements]

    [active_step] is one turn of the loop: the new value of [active]. *)
Definition active_step (today : date) (active : list (gmap string Value))
    (ann : gmap string Value) : list (gmap string Value) :=
  let start := parse_date (get "start_date" ann) in
  let expire := parse_date (get "expire_date" ann) in
  match expire with
  | None => active
  | Some expire =>
      if match start with Some start => date_gt start today | None => false end
      then active
      else if date_ge expire today then (active ++ [serialize_ann ann])%list
      else active
  end.

Definition list_active_announcements (today : date) (db : Database)
  : result (list (gmap string Value)) :=
  let active := fold_left (active_step today) (announcements_collection db) [] in
  py_sort (get_default "expire_date" (VStr "")) active.

(** The active window as the specification words it: [expire_date]
    parses to a date that is today or later, and [start_date] is absent
    or unparseable, or parses to a date that is not after today. *)
Definition spec_active (today : date) (ann : gmap string Value) : Prop :=
  (∃ e, parse_date (get "expire_date" ann) = Some e ∧ date_ge e today = true) ∧
  (parse_date (get "start_date" ann) = None ∨
   ∃ s, parse_date (get "start_date" ann) = Some s ∧ date_gt s today = false).

(** Two representations in ascending order of their raw [expire_date]
    text. *)
Definition raw_expire_le (a b : gmap string Value) : Prop :=
  ∃ sa sb, a !! "expire_date" = Some (VStr sa) ∧
           b !! "expire_date" = Some (VStr sb) ∧
           String.leb sa sb = true.

(** Ids are unique within a collection, as the server guarantees. *)
Definition unique_ids (coll : list (gmap string Value)) : Prop :=
  NoDup (map (fun d : gmap string Value => d !! "_id") coll).

(** ** The handlers that write

    Each returns what the request gets, a value or the exception raised,
    together with the database as the handler leaves it.  A document
    that [find_one] returns holds at least its [_id], so it is truthy
    and [if not teacher] and [if not ann] test for [None]. *)

(** ** [create_announcement]

    [utcnow_iso] is [datetime.utcnow().isoformat()] and [fresh] the id
    the driver generates for the insert. *)
Definition create_announcement (db : Database) (utcnow_iso : string)
    (fresh : ObjectId)
    (title message expire_date : string) (start_date : option string)
    (teacher_username : string) : result (gmap string Value) * Database :=
  match find_one (VStr teacher_username) (teachers_collection db) with
  | None => (Raise (HTTPException 401 "Authentication required"), db)
  | Some _ =>
      match parse_date (VStr expire_date) with
      | None =>
          (Raise (HTTPException 400 "Invalid expire_date format, expected YYYY-MM-DD"),
           db)
      | Some exp =>
          let start := parse_date (of_optional start_date) in
          if match start with Some start => date_gt start exp | None => false end
          then (Raise (HTTPException 400 "start_date cannot be after expire_date"), db)
          else
            let doc : gmap string Value :=
              <["title" := VStr title]>
              (<["message" := VStr message]>
              (<["start_date" := if is_none start then VNone else of_optional start_date]>
              (<["expire_date" := VStr expire_date]>
              (<["created_by" := VStr teacher_username]>
              (<["created_at" := VStr (utcnow_iso ++ "Z")]> ∅))))) in
            let '(doc, anns) := insert_one doc fresh (announcements_collection db) in
            let doc := <["id" := VStr (py_str (VOid fresh))]> doc in
            (Ok (serialize_ann (<["_id" := VOid fresh]> doc)),
             with_announcements db anns)
      end
  end.

(** ** [update_announcement]

    [build_updates] is the part of the handler that fills the [updates]
    dict, field by field, and may raise on a date. *)
Definition build_updates (title message expire_date start_date : option string)
  : result (gmap string Value) :=
  let updates : gmap string Value := ∅ in
  let updates :=
    match title with
    | Some t => <["title" := VStr t]> updates
    | None => updates
    end in
  let updates :=
    match message with
    | Some m => <["message" := VStr m]> updates
    | None => updates
    end in
  updates ←
    match expire_date with
    | Some e =>
        if is_none (parse_date (VStr e))
        then Raise (HTTPException 400 "Invalid expire_date format")
        else Ok (<["expire_date" := VStr e]> updates)
    | None => Ok updates
    end;
  match start_date with
  | Some s =>
      if negb (String.eqb s "") && is_none (parse_date (VStr s))
      then Raise (HTTPException 400 "Invalid start_date format")
      else Ok (<["start_date" := if negb (String.eqb s "") then VStr s else VNone]>
                 updates)
  | None => Ok updates
  end.

Definition update_announcement (db : Database) (announcement_id : string)
    (title message expire_date start_date : option string)
    (teacher_username : string) : result (gmap string Value) * Database :=
  match find_one (VStr teacher_username) (teachers_collection db) with
  | None => (Raise (HTTPException 401 "Authentication required"), db)
  | Some _ =>
      match ObjectId_parse announcement_id with
      | None => (Raise (HTTPException 400 "Invalid announcement id"), db)
      | Some oid =>
          match find_one (VOid oid) (announcements_collection db) with
          | None => (Raise (HTTPException 404 "Announcement not found"), db)
          | Some _ =>
              match build_updates title message expire_date start_date with
              | Raise e => (Raise e, db)
              | Ok updates =>
                  if bool_decide (updates = ∅)
                  then (Raise (HTTPException 400 "No updates provided"), db)
                  else
                    let anns :=
                      update_one (VOid oid) updates (announcements_collection db) in
                    let db := with_announcements db anns in
                    match find_one (VOid oid) (announcements_collection db) with
                    | None => (Raise AttributeError, db)
                    | Some updated => (Ok (serialize_ann updated), db)
                    end
              end
          end
      end
  end.

(** ** [delete_announcement] *)
Definition delete_announcement (db : Database) (announcement_id : string)
    (teacher_username : string) : result (gmap string Value) * Database :=
  match find_one (VStr teacher_username) (teachers_collection db) with
  | None => (Raise (HTTPException 401 "Authentication required"), db)
  | Some _ =>
      match ObjectId_parse announcement_id with
      | None => (Raise (HTTPException 400 "Invalid announcement id"), db)
      | Some oid =>
          let '(anns, deleted_count) :=
            delete_one (VOid oid) (announcements_collection db) in
          let db := with_announcements db anns in
          if (deleted_count =? 0)%nat
          then (Raise (HTTPException 404 "Announcement not found"), db)
          else (Ok {["message" := VStr "Announcement deleted"]}, db)
      end
  end.

(** ** Vocabulary of the statements *)

(** A key that is a string, and two keys in ascending order. *)
Definition str_key (key : gmap string Value → Value) (a : gmap string Value) : Prop :=
  ∃ s, key a = VStr s.

Definition key_le (key : gmap string Value → Value) (a b : gmap string Value) : Prop :=
  ∃ sa sb, key a = VStr sa ∧ key b = VStr sb ∧ String.leb sa sb = true.

(** The document a successful create hands to the store, with the id
    the driver gave it. *)
Definition created_doc (utcnow_iso : string) (fresh : ObjectId)
    (title message expire_date : string) (start_date : Value)
    (teacher_username : string) : gmap string Value :=
  <["_id" := VOid fresh]>
  (<["title" := VStr title]>
  (<["message" := VStr message]>
  (<["start_date" := start_date]>
  (<["expire_date" := VStr expire_date]>
  (<["created_by" := VStr teacher_username]>
  (<["created_at" := VStr (utcnow_iso ++ "Z")]> ∅)))))).

End Router.

Arguments Value ObjectId : clear implicits.
Arguments Database ObjectId : clear implicits.

(** ** A concrete driver

    Object ids are 96-bit numbers written as 24 hexadecimal digits, and
    the ISO parser accepts the ten characters [YYYY-MM-DD] of a date
    that exists in the proleptic Gregorian calendar. *)
Module Concrete.

Definition hex_digit (c : ascii) : option N :=
  let n := N_of_ascii c in
  if (48 <=? n)%N && (n <=? 57)%N then Some (n - 48)%N
  else if (97 <=? n)%N && (n <=? 102)%N then Some (n - 87)%N
  else if (65 <=? n)%N && (n <=? 70)%N then Some (n - 55)%N
  else None.

Fixpoint hex_value (acc : N) (s : string) : option N :=
  match s with
  | EmptyString => Some acc
  | String c s' =>
      match hex_digit c with
      | Some d => hex_value (16 * acc + d)%N s'
      | None => None
      end
  end.

Definition oid_parse (s : string) : option N :=
  if (String.length s =? 24)%nat then hex_value 0%N s else None.

Definition hex_char (d : N) : ascii :=
  if (d <? 10)%N then ascii_of_N (48 + d) else ascii_of_N (87 + d).

Fixpoint hex_string (digits : nat) (n : N) (acc : string) : string :=
  match digits with
  | O => acc
  | S k => hex_string k (n / 16)%N (String (hex_char (n mod 16)%N) acc)
  end.

Definition oid_str (n : N) : string := hex_string 24 n "".

Definition dec_digit (c : ascii) : option Z :=
  let n := N_of_ascii c in
  if (48 <=? n)%N && (n <=? 57)%N then Some (Z.of_N (n - 48)) else None.

Fixpoint dec_value (acc : Z) (s : list ascii) : option Z :=
  match s with
  | [] => Some acc
  | c :: s' =>
      match dec_digit c with
      | Some d => dec_value (10 * acc + d)%Z s'
      | None => None
      end
  end.

Definition is_leap (y : Z) : bool :=
  ((y mod 4 =? 0) && (negb (y mod 100 =? 0) || (y mod 400 =? 0)))%Z.

Definition days_in_month (y m : Z) : Z :=
  if (m =? 2)%Z then (if is_leap y then 29 else 28)%Z
  else if ((m =? 4) || (m =? 6) || (m =? 9) || (m =? 11))%Z then 30%Z
  else 31%Z.

Definition iso_date (s : string) : option date :=
  match list_ascii_of_string s with
  | [y1; y2; y3; y4; "-"%char; m1; m2; "-"%char; d1; d2] =>
      y ← dec_value 0 [y1; y2; y3; y4];
      m ← dec_value 0 [m1; m2];
      d ← dec_value 0 [d1; d2];
      if ((1 <=? y) && (1 <=? m) && (m <=? 12) && (1 <=? d)
          && (d <=? days_in_month y m))%Z
      then Some (mkdate y m d) else None
  | _ => None
  end.

#[export] Instance drivers : Drivers N := {|
  ObjectId_parse := oid_parse;
  ObjectId_str := oid_str;
  fromisoformat := iso_date;
|}.

End Concrete.



(** ** A sample database

    One teacher and five stored announcements: two current ones, stored
    out of expiry order, one expired, one not started yet, and one
    without [expire_date]. *)
Module Sample.
Import Concrete.

Definition alice : gmap string (Value N) := {["_id" := VStr "alice"]}.

Definition exam_notice : gmap string (Value N) :=
  created_doc "2026-09-01T08:00:00" 1%N "Exam Notice" "Midterm moved"
    "2099-01-01" VNone "alice".

Definition science_fair : gmap string (Value N) :=
  created_doc "2019-09-01T08:00:00" 2%N "Science Fair" "Gym, 3pm"
    "2020-01-01" VNone "alice".

Definition next_term : gmap string (Value N) :=
  created_doc "2026-09-01T08:00:00" 3%N "Next term" "Enrolment opens"
    "2099-06-01" (VStr "2098-01-01") "alice".

Definition draft : gmap string (Value N) :=
  <["_id" := VOid 4%N]> {["title" := VStr "Draft"]}.

Definition field_trip : gmap string (Value N) :=
  created_doc "2026-10-01T08:00:00" 5%N "Field trip" "Bring boots"
    "2027-05-01" (VStr "2026-10-01") "alice".

Definition db : Database N :=
  mkDatabase [exam_notice; science_fair; next_term; draft; field_trip] [alice].

Definition today : date := mkdate 2026 11 3.

Definition exam_notice_id : string := "000000000000000000000001".
Definition unused_id : string := "0000000000000000000000ff".


(** Two current announcements, stored in order of expiry. *)
Definition current : Database N := mkDatabase [field_trip; exam_notice] [alice].

Definition new_id : string := "000000000000000000000006".

End Sample.

(** * Properties *)

Open Scope list_scope.

(** ** Order facts on strings and dates *)

Lemma ascii_compare_lt_trans (a b c : ascii) :
  Ascii.compare a b = Lt → Ascii.compare b c = Lt → Ascii.compare a c = Lt.
Proof.
  unfold Ascii.compare. rewrite !N.compare_lt_iff. lia.
Qed.

Lemma string_compare_lt_trans (a b c : string) :
  String.compare a b = Lt → String.compare b c = Lt → String.compare a c = Lt.
Proof.
  revert b c. induction a as [|x a IH]; intros [|y b] [|z c]; simpl; try congruence.
  destruct (Ascii.compare x y) eqn:Exy; try congruence;
    destruct (Ascii.compare y z) eqn:Eyz; try congruence; intros Hab Hbc.
  - apply Ascii.compare_eq_iff in Exy, Eyz. subst.
    assert (Ascii.compare z z = Eq) as ->
        by (unfold Ascii.compare; apply N.compare_refl).
    eauto.
  - apply Ascii.compare_eq_iff in Exy. subst. now rewrite Eyz.
  - apply Ascii.compare_eq_iff in Eyz. subst. now rewrite Exy.
  - now rewrite (ascii_compare_lt_trans _ _ _ Exy Eyz).
Qed.

Lemma string_leb_trans (a b c : string) :
  String.leb a b = true → String.leb b c = true → String.leb a c = true.
Proof.
  unfold String.leb.
  destruct (String.compare a b) eqn:Eab; try discriminate;
    destruct (String.compare b c) eqn:Ebc; try discriminate; intros _ _.
  - apply String.compare_eq_iff in Eab. subst. now rewrite Ebc.
  - apply String.compare_eq_iff in Eab. subst. now rewrite Ebc.
  - apply String.compare_eq_iff in Ebc. subst. now rewrite Eab.
  - now rewrite (string_compare_lt_trans _ _ _ Eab Ebc).
Qed.

Lemma string_ltb_leb (a b : string) :
  String.ltb a b = true → String.leb a b = true.
Proof. unfold String.ltb, String.leb. now destruct (String.compare a b). Qed.

Lemma string_not_ltb_leb (a b : string) :
  String.ltb a b = false → String.leb b a = true.
Proof.
  unfold String.ltb, String.leb. rewrite (String.compare_antisym a b).
  now destruct (String.compare b a).
Qed.

Lemma date_compare_refl (d : date) : date_compare d d = Eq.
Proof. unfold date_compare. now rewrite !Z.compare_refl. Qed.

Lemma date_gt_irrefl (d : date) : date_gt d d = false.
Proof. unfold date_gt. now rewrite date_compare_refl. Qed.

Lemma date_compare_antisym (a b : date) :
  date_compare a b = CompOpp (date_compare b a).
Proof.
  unfold date_compare.
  rewrite (Z.compare_antisym (year a)), (Z.compare_antisym (month a)),
    (Z.compare_antisym (day a)).
  destruct (year a ?= year b)%Z; simpl; try reflexivity.
  destruct (month a ?= month b)%Z; simpl; try reflexivity.
  now rewrite CompOpp_involutive.
Qed.

(** [a < b] is [b > a]: a date strictly before [today] is not [>= today]. *)
Lemma date_gt_not_ge (a b : date) : date_gt b a = true → date_ge a b = false.
Proof.
  unfold date_gt, date_ge. rewrite (date_compare_antisym a b).
  now destruct (date_compare b a).
Qed.

Lemma elem_of_flat_map {A B} (f : A → list B) (l : list A) (y : B) :
  y ∈ flat_map f l ↔ ∃ x, x ∈ l ∧ y ∈ f x.
Proof.
  rewrite list_elem_of_In, in_flat_map.
  split; intros (x & Hx & Hy); exists x; split; now apply list_elem_of_In.
Qed.

Section Properties.
Context {ObjectId : Type} `{!Drivers ObjectId}.

Local Abbreviation Doc := (gmap string (Value ObjectId)).

Implicit Types (db : Database ObjectId) (ann doc : Doc) (coll : list Doc).

(** ** [parse_date] and [serialize_ann] *)

Lemma parse_date_Some_str (v : Value ObjectId) (d : date) :
  parse_date v = Some d → ∃ s, v = VStr s ∧ s ≠ "" ∧ fromisoformat s = Some d.
Proof.
  unfold parse_date. destruct v as [|z|s|o]; simpl; try discriminate.
  - destruct (negb (negb (z =? 0)%Z)); discriminate.
  - destruct (String.eqb_spec s ""); simpl; [discriminate|]. eauto.
Qed.

Lemma parse_date_str (s : string) :
  s ≠ "" → parse_date (VStr s) = fromisoformat s.
Proof.
  intros Hs. unfold parse_date. simpl.
  now destruct (String.eqb_spec s "").
Qed.

Lemma get_Some_str (k : string) ann (s : string) :
  s ≠ "" → get k ann = VStr s → ann !! k = Some (VStr s).
Proof.
  unfold get, get_default. destruct (ann !! k); simpl; congruence.
Qed.

Lemma serialize_ann_lookup ann (k : string) :
  k ≠ "_id" → k ≠ "id" → serialize_ann ann !! k = ann !! k.
Proof.
  intros H1 H2. unfold serialize_ann.
  rewrite lookup_insert_ne by congruence. now rewrite lookup_delete_ne by congruence.
Qed.

Lemma serialize_ann_get ann (k : string) :
  k ≠ "_id" → k ≠ "id" → get k (serialize_ann ann) = get k ann.
Proof.
  intros H1 H2. unfold get, get_default. now rewrite serialize_ann_lookup.
Qed.

(** ** The loop of [list_active_announcements] *)

Lemma active_step_acc today active ann :
  active_step today active ann = active ++ active_step today [] ann.
Proof.
  unfold active_step.
  destruct (parse_date (get "expire_date" ann)); [|now rewrite app_nil_r].
  destruct (match parse_date (get "start_date" ann) with
            | Some start => date_gt start today | None => false end);
    [now rewrite app_nil_r|].
  destruct (date_ge d today); [reflexivity | now rewrite app_nil_r].
Qed.

Lemma fold_active_step today coll active :
  fold_left (active_step today) coll active
  = active ++ flat_map (active_step today []) coll.
Proof.
  revert active. induction coll as [|ann coll IH]; intros active; simpl.
  - now rewrite app_nil_r.
  - rewrite IH, (active_step_acc today active ann). now rewrite <- app_assoc.
Qed.

Lemma active_step_spec today ann (x : Doc) :
  x ∈ active_step today [] ann ↔ x = serialize_ann ann ∧ spec_active today ann.
Proof.
  unfold active_step, spec_active.
  destruct (parse_date (get "expire_date" ann)) as [e|].
  2:{ split; [intros Hx; inversion Hx|]. intros [_ [[e [He _]] _]]. discriminate. }
  destruct (parse_date (get "start_date" ann)) as [s|].
  - destruct (date_gt s today) eqn:Hs.
    + split; [intros Hx; inversion Hx|].
      intros [_ [_ [Hn | [s' [Hs' Hgt]]]]]; [discriminate|]. congruence.
    + destruct (date_ge e today) eqn:He; simpl.
      * rewrite list_elem_of_singleton. split; [intros ->|intros [-> _]; reflexivity].
        split; [reflexivity|]. split; [eauto|]. right. eauto.
      * split; [intros Hx; inversion Hx|].
        intros [_ [[e' [He' Hge]] _]]. congruence.
  - destruct (date_ge e today) eqn:He; simpl.
    + rewrite list_elem_of_singleton. split; [intros ->|intros [-> _]; reflexivity].
      split; [reflexivity|]. split; [eauto|]. now left.
    + split; [intros Hx; inversion Hx|].
      intros [_ [[e' [He' Hge]] _]]. congruence.
Qed.

Lemma spec_active_serialize today ann ann' :
  serialize_ann ann' = serialize_ann ann → spec_active today ann' → spec_active today ann.
Proof.
  intros Heq. unfold spec_active.
  rewrite <- (serialize_ann_get ann "expire_date"), <- (serialize_ann_get ann "start_date"),
    <- (serialize_ann_get ann' "expire_date"), <- (serialize_ann_get ann' "start_date")
    by congruence.
  now rewrite Heq.
Qed.

(** ** [list.sort] on string keys *)

Lemma py_insert_sorted key (x : Doc) (l : list (Doc)) :
  str_key key x → Forall (str_key key) l → StronglySorted (key_le key) l →
  ∃ r, py_insert key x l = Ok r ∧ r ≡ₚ x :: l ∧ StronglySorted (key_le key) r.
Proof.
  intros [sx Hx]. induction l as [|y l IH]; intros Hl Hs.
  - exists [x]. repeat split; auto. repeat constructor.
  - inversion Hl as [|? ? [sy Hy] Hl']; subst.
    apply StronglySorted_inv in Hs as [Hs Hyl].
    simpl. rewrite Hy, Hx. simpl.
    destruct (String.ltb sy sx) eqn:Hlt.
    + destruct (IH Hl' Hs) as (r & -> & Hperm & Hsr). simpl.
      exists (y :: r). split; [reflexivity|]. split.
      * rewrite Hperm. apply perm_swap.
      * constructor; [assumption|]. rewrite Hperm. constructor; [|assumption].
        exists sy, sx. auto using string_ltb_leb.
    + exists (x :: y :: l). split; [reflexivity|]. split; [reflexivity|].
      assert (key_le key x y) as Hxy
          by (exists sx, sy; auto using string_not_ltb_leb).
      constructor; [now constructor|]. constructor; [assumption|].
      eapply Forall_impl; [exact Hyl|]. intros z (sy' & sz & Hy' & Hz & Hle).
      exists sx, sz. repeat split; auto.
      rewrite Hy in Hy'. injection Hy' as <-.
      destruct Hxy as (sx' & sy' & Hx' & Hy' & Hle').
      rewrite Hx in Hx'. rewrite Hy in Hy'. injection Hx' as <-. injection Hy' as <-.
      eauto using string_leb_trans.
Qed.

Lemma py_sort_sorted key (l : list (Doc)) :
  Forall (str_key key) l →
  ∃ r, py_sort key l = Ok r ∧ r ≡ₚ l ∧ StronglySorted (key_le key) r.
Proof.
  induction l as [|x l IH]; intros Hl.
  - exists []. repeat split; auto. constructor.
  - inversion Hl as [|? ? Hx Hl']; subst.
    destruct (IH Hl') as (s & Hs & Hperm & Hsorted).
    simpl. rewrite Hs. simpl.
    destruct (py_insert_sorted key x s) as (r & Hr & Hperm' & Hsorted'); auto.
    { now rewrite Hperm. }
    exists r. split; [assumption|]. split; [|assumption].
    now rewrite Hperm', Hperm.
Qed.

(** Every representation the loop collects carries a string under
    [expire_date]: the one that parsed. *)
Lemma active_step_str_key today ann (x : Doc) :
  x ∈ active_step today [] ann →
  ∃ s, x !! "expire_date" = Some (VStr s).
Proof.
  intros [-> [[e [He _]] _]]%active_step_spec.
  apply parse_date_Some_str in He as (s & Hs & Hne & _).
  exists s. rewrite serialize_ann_lookup by congruence.
  now apply get_Some_str.
Qed.

Lemma active_str_keys today coll :
  Forall (fun x : Doc => ∃ s, x !! "expire_date" = Some (VStr s))
         (flat_map (active_step today []) coll).
Proof.
  apply Forall_forall. intros x (ann & _ & Hx)%elem_of_flat_map.
  eapply active_step_str_key, Hx.
Qed.

(** The handler returns: a permutation of what the loop collected,
    sorted on the raw [expire_date] text. *)
Lemma list_active_announcements_returns today db :
  ∃ out, list_active_announcements today db = Ok out ∧
         out ≡ₚ flat_map (active_step today []) (announcements_collection db) ∧
         StronglySorted raw_expire_le out.
Proof.
  unfold list_active_announcements. rewrite fold_active_step. simpl.
  set (key := get_default "expire_date" (VStr "")).
  destruct (py_sort_sorted key
              (flat_map (active_step today []) (announcements_collection db)))
    as (out & Hout & Hperm & Hsorted).
  { eapply Forall_impl; [apply active_str_keys|].
    intros x [s Hs]. exists s. unfold key, get_default. now rewrite Hs. }
  exists out. split; [assumption|]. split; [assumption|].
  assert (Forall (fun x : Doc =>
                    ∃ s, x !! "expire_date" = Some (VStr s)) out) as Hkeys
      by (rewrite Hperm; apply active_str_keys).
  clear Hout Hperm. induction Hsorted as [|a l Hl IH Ha]; constructor.
  - apply IH. now inversion Hkeys.
  - inversion Hkeys as [|? ? [sa Hsa] Hkl]; subst.
    apply Forall_forall. intros b Hb.
    rewrite Forall_forall in Ha, Hkl.
    destruct (Hkl b Hb) as [sb Hsb].
    destruct (Ha b Hb) as (sa' & sb' & Ha' & Hb' & Hle).
    unfold key, get_default in Ha', Hb'. rewrite Hsa in Ha'. rewrite Hsb in Hb'.
    simpl in Ha', Hb'. injection Ha' as <-. injection Hb' as <-.
    exists sa, sb. auto.
Qed.

(** What the active view holds: the representations of the stored
    records inside their window. *)
Lemma list_active_elem today db (x : Doc) :
  ∃ out, list_active_announcements today db = Ok out ∧
         (x ∈ out ↔ ∃ ann, ann ∈ announcements_collection db ∧
                           x = serialize_ann ann ∧ spec_active today ann).
Proof.
  destruct (list_active_announcements_returns today db) as (out & Hout & Hperm & _).
  exists out. split; [assumption|]. rewrite Hperm, elem_of_flat_map.
  split; intros (ann & Hin & Hx); exists ann; (split; [assumption|]);
    now apply active_step_spec.
Qed.

(** ** C1 and C9: the active view *)

(** C1. For every stored announcement, [list_active_announcements]
    (evaluated against [today]) returns, and its result holds the
    record's representation if and only if the record's [expire_date]
    parses to a date that is [today] or later and its [start_date] is
    absent or unparseable or parses to a date not after [today]; a
    record whose [expire_date] is missing or unparseable is not in the
    result. *)
Theorem list_active_includes_iff today db ann :
  ann ∈ announcements_collection db →
  ∃ out, list_active_announcements today db = Ok out ∧
         (serialize_ann ann ∈ out ↔ spec_active today ann) ∧
         (parse_date (get "expire_date" ann) = None → serialize_ann ann ∉ out).
Proof.
  intros Hin.
  destruct (list_active_elem today db (serialize_ann ann)) as (out & Hout & Helem).
  exists out. split; [assumption|].
  assert (serialize_ann ann ∈ out ↔ spec_active today ann) as Hiff.
  { rewrite Helem. split.
    - intros (ann' & _ & Heq & Hact).
      eapply spec_active_serialize; [symmetry; exact Heq | exact Hact].
    - intros Hact. exists ann. auto. }
  split; [assumption|].
  intros Hnone [[e [He _]] _]%Hiff. congruence.
Qed.

(** C9. For every store state, [list_active_announcements] returns a
    sequence sorted in ascending order of the raw [expire_date] strings
    under lexical string comparison. *)
Theorem list_active_sorted_by_raw_expire_date today db :
  ∃ out, list_active_announcements today db = Ok out ∧
         StronglySorted raw_expire_le out.
Proof.
  destruct (list_active_announcements_returns today db) as (out & Hout & _ & Hs).
  eauto.
Qed.


(** ** The collections *)

Lemma with_announcements_same db :
  with_announcements db (announcements_collection db) = db.
Proof. now destruct db. Qed.

Lemma find_one_Some (id : Value ObjectId) coll doc :
  find_one id coll = Some doc → doc ∈ coll ∧ doc !! "_id" = Some id.
Proof.
  intros [Hin Hm]%find_some. split; [now apply list_elem_of_In|].
  unfold matches_id in Hm. now apply bool_decide_eq_true in Hm.
Qed.

Lemma find_one_None (id : Value ObjectId) coll :
  find_one id coll = None ↔ ∀ doc, doc ∈ coll → doc !! "_id" ≠ Some id.
Proof.
  unfold find_one. split.
  - intros Hnone doc Hin%list_elem_of_In.
    pose proof (find_none _ _ Hnone doc Hin) as Hm.
    unfold matches_id in Hm. now apply bool_decide_eq_false in Hm.
  - intros Hall. induction coll as [|d coll IH]; [reflexivity|]. simpl.
    unfold matches_id at 1. rewrite bool_decide_eq_false_2.
    + apply IH. intros doc Hin. apply Hall. now right.
    + apply Hall. now left.
Qed.

Lemma fold_left_append {A B} (f : A → B) (l : list A) (acc : list B) :
  fold_left (fun out a => out ++ [f a]) l acc = acc ++ map f l.
Proof.
  revert acc. induction l as [|a l IH]; intros acc; simpl.
  - now rewrite app_nil_r.
  - rewrite IH. now rewrite <- app_assoc.
Qed.

Lemma bson_insert_perm (field : string) (x : Doc) l :
  bson_insert field x l ≡ₚ x :: l.
Proof.
  induction l as [|y l IH]; simpl; [reflexivity|].
  destruct (bson_lt (y !! field) (x !! field)); [|reflexivity].
  rewrite IH. apply perm_swap.
Qed.

Lemma mongo_sort_perm (field : string) coll : mongo_sort field coll ≡ₚ coll.
Proof.
  unfold mongo_sort. induction coll as [|x coll IH]; simpl; [reflexivity|].
  now rewrite bson_insert_perm, IH.
Qed.

(** [list_announcements] shows every stored record, and nothing else. *)
Lemma list_announcements_perm db :
  list_announcements db ≡ₚ map serialize_ann (announcements_collection db).
Proof.
  unfold list_announcements. rewrite fold_left_append. simpl.
  now rewrite mongo_sort_perm.
Qed.

(** ** [create_announcement] *)

(** What create returns is the representation of the stored document. *)
Lemma created_representation (fresh : ObjectId) doc :
  serialize_ann
    (<["_id" := VOid fresh]>
       (<["id" := VStr (py_str (VOid fresh))]> (<["_id" := VOid fresh]> doc)))
  = serialize_ann (<["_id" := VOid fresh]> doc).
Proof.
  unfold serialize_ann, get, get_default. rewrite !lookup_insert_eq. simpl.
  apply map_eq. intros k.
  rewrite !lookup_insert, !lookup_delete, !lookup_insert.
  repeat case_decide; congruence.
Qed.

(** The three ways create ends once the requester is a teacher and
    [expire_date] parses. *)
Lemma create_announcement_checked db utcnow_iso fresh title message expire_date
    start_date user t exp :
  find_one (VStr user) (teachers_collection db) = Some t →
  parse_date (VStr expire_date) = Some exp →
  create_announcement db utcnow_iso fresh title message expire_date start_date user
  = match parse_date (of_optional start_date) with
    | Some start =>
        if date_gt start exp
        then (Raise (HTTPException 400 "start_date cannot be after expire_date"), db)
        else
          let doc := created_doc utcnow_iso fresh title message expire_date
                       (of_optional start_date) user in
          (Ok (serialize_ann doc),
           with_announcements db (announcements_collection db ++ [doc]))
    | None =>
        let doc := created_doc utcnow_iso fresh title message expire_date VNone user in
        (Ok (serialize_ann doc),
         with_announcements db (announcements_collection db ++ [doc]))
    end.
Proof.
  intros Ht Hexp. unfold create_announcement. rewrite Ht, Hexp.
  destruct (parse_date (of_optional start_date)) as [start|]; simpl.
  - destruct (date_gt start exp); [reflexivity|].
    now rewrite created_representation.
  - now rewrite created_representation.
Qed.

(** A create that returns went through both checks. *)
Lemma create_announcement_Ok_inv db utcnow_iso fresh title message expire_date
    start_date user resp db' :
  create_announcement db utcnow_iso fresh title message expire_date start_date user
  = (Ok resp, db') →
  ∃ t exp, find_one (VStr user) (teachers_collection db) = Some t ∧
           parse_date (VStr expire_date) = Some exp.
Proof.
  unfold create_announcement.
  destruct (find_one (VStr user) (teachers_collection db)) as [t|]; [|discriminate].
  destruct (parse_date (VStr expire_date)) as [exp|]; [|discriminate]. eauto.
Qed.

(** ** C4, C5, C6, C10: creation *)

(** C4. For every create request by an authorized requester with a
    parseable [expire_date] and a supplied, parseable [start_date], the
    operation fails with BadRequest "start_date cannot be after
    expire_date" if and only if the parsed [start_date] is strictly
    after the parsed [expire_date]; otherwise, and so when the two are
    equal, it returns. *)
Theorem create_start_after_expire_iff db utcnow_iso fresh title message expire_date
    start_date user exp start :
  is_Some (find_one (VStr user) (teachers_collection db)) →
  parse_date (VStr expire_date) = Some exp →
  parse_date (VStr start_date) = Some start →
  let r := create_announcement db utcnow_iso fresh title message expire_date
             (Some start_date) user in
  (r.1 = Raise (BadRequest "start_date cannot be after expire_date")
   ↔ date_gt start exp = true) ∧
  (date_gt start exp = false → ∃ resp, r.1 = Ok resp) ∧
  (start = exp → ∃ resp, r.1 = Ok resp).
Proof.
  intros [t Ht] Hexp Hstart r. subst r.
  rewrite (create_announcement_checked _ _ _ _ _ _ _ _ t exp Ht Hexp).
  simpl. rewrite Hstart.
  destruct (date_gt start exp) eqn:Hgt; simpl.
  - split; [split; reflexivity|]. split; [discriminate|].
    intros ->. now rewrite date_gt_irrefl in Hgt.
  - split; [split; discriminate|]. split; eauto.
Qed.

(** C5. For every create request by an authorized requester with a
    parseable [expire_date] and a supplied but unparseable [start_date],
    the operation raises nothing and the record it appends to the
    collection has [start_date] set to [None]. *)
Theorem create_unparseable_start_stored_absent db utcnow_iso fresh title message
    expire_date start_date user exp :
  is_Some (find_one (VStr user) (teachers_collection db)) →
  parse_date (VStr expire_date) = Some exp →
  parse_date (VStr start_date) = None →
  ∃ doc,
    create_announcement db utcnow_iso fresh title message expire_date
      (Some start_date) user
    = (Ok (serialize_ann doc),
       with_announcements db (announcements_collection db ++ [doc])) ∧
    doc !! "_id" = Some (VOid fresh) ∧
    doc !! "start_date" = Some VNone.
Proof.
  intros [t Ht] Hexp Hstart.
  rewrite (create_announcement_checked _ _ _ _ _ _ _ _ t exp Ht Hexp).
  simpl. rewrite Hstart.
  eexists. split; [reflexivity|]. split; reflexivity.
Qed.


(** C6, as the code has it. For every successful create, the record
    appended to the collection holds the supplied [title] and [message]
    as they were given; create puts no condition on the two texts, so
    the same request with any other title and message, the empty ones
    included, succeeds as well. *)
Theorem create_stores_title_and_message_as_given db utcnow_iso fresh title message
    expire_date start_date user resp db' :
  create_announcement db utcnow_iso fresh title message expire_date start_date user
  = (Ok resp, db') →
  (∃ doc, announcements_collection db' = announcements_collection db ++ [doc] ∧
          doc !! "title" = Some (VStr title) ∧
          doc !! "message" = Some (VStr message)) ∧
  (∀ title' message', ∃ resp' db'',
      create_announcement db utcnow_iso fresh title' message' expire_date
        start_date user = (Ok resp', db'')).
Proof.
  intros Hcreate.
  destruct (create_announcement_Ok_inv _ _ _ _ _ _ _ _ _ _ Hcreate)
    as (t & exp & Ht & Hexp).
  split.
  - rewrite (create_announcement_checked _ _ _ _ _ _ _ _ t exp Ht Hexp) in Hcreate.
    destruct (parse_date (of_optional start_date)) as [start|];
      [destruct (date_gt start exp); [discriminate|]|];
      simpl in Hcreate; injection Hcreate as _ <-; simpl;
      eexists; (split; [reflexivity|]); split; reflexivity.
  - intros title' message'.
    rewrite (create_announcement_checked _ _ _ _ _ _ _ _ t exp Ht Hexp) in Hcreate.
    rewrite (create_announcement_checked _ _ _ _ _ _ _ _ t exp Ht Hexp).
    destruct (parse_date (of_optional start_date)) as [start|];
      [destruct (date_gt start exp); [discriminate|]|]; simpl; eauto.
Qed.

(** C10, as the code has it. Create imposes no relation between
    [expire_date] and the current date: for every authorized requester
    and every parseable [expire_date], a create whose [start_date] is
    omitted, unparseable or not after [expire_date] succeeds; and for
    every [today] strictly after the parsed [expire_date], the new
    record is in the [list_announcements] output and not in the
    [list_active_announcements] output. *)
Theorem create_expired_listed_not_active db utcnow_iso fresh title message
    expire_date start_date user exp :
  is_Some (find_one (VStr user) (teachers_collection db)) →
  parse_date (VStr expire_date) = Some exp →
  (∀ start, parse_date (of_optional start_date) = Some start →
            date_gt start exp = false) →
  ∃ doc db',
    create_announcement db utcnow_iso fresh title message expire_date start_date user
    = (Ok (serialize_ann doc), db') ∧
    announcements_collection db' = announcements_collection db ++ [doc] ∧
    doc !! "expire_date" = Some (VStr expire_date) ∧
    ∀ today, date_gt today exp = true →
      serialize_ann doc ∈ list_announcements db' ∧
      ∃ out, list_active_announcements today db' = Ok out ∧
             serialize_ann doc ∉ out.
Proof.
  intros [t Ht] Hexp Hstart.
  rewrite (create_announcement_checked _ _ _ _ _ _ _ _ t exp Ht Hexp).
  assert (∀ sd, let doc := created_doc utcnow_iso fresh title message expire_date
                             sd user in
                let db' := with_announcements db (announcements_collection db ++ [doc]) in
                announcements_collection db' = announcements_collection db ++ [doc] ∧
                doc !! "expire_date" = Some (VStr expire_date) ∧
                ∀ today, date_gt today exp = true →
                  serialize_ann doc ∈ list_announcements db' ∧
                  ∃ out, list_active_announcements today db' = Ok out ∧
                         serialize_ann doc ∉ out) as Hdoc.
  { intros sd doc db'. split; [reflexivity|]. split; [reflexivity|].
    intros today Hlate. split.
    - rewrite list_announcements_perm. apply list_elem_of_In, in_map, list_elem_of_In.
      simpl. apply elem_of_app. right. now left.
    - destruct (list_active_elem today db' (serialize_ann doc)) as (out & Hout & Helem).
      exists out. split; [assumption|].
      intros (ann & _ & Heq & [[e [He Hge]] _])%Helem.
      rewrite <- (serialize_ann_get ann "expire_date"), <- Heq,
        serialize_ann_get in He by congruence.
      assert (get "expire_date" doc = VStr expire_date) as Hget by reflexivity.
      rewrite Hget, Hexp in He. injection He as <-.
      apply date_gt_not_ge in Hlate. congruence. }
  destruct (parse_date (of_optional start_date)) as [start|].
  - rewrite (Hstart start eq_refl). eexists _, _. split; [reflexivity|]. apply Hdoc.
  - eexists _, _. split; [reflexivity|]. apply Hdoc.
Qed.


(** ** [update_announcement] *)

Lemma find_one_update_one (id : Value ObjectId) (updates : Doc) coll doc :
  updates !! "_id" = None →
  find_one id coll = Some doc →
  find_one id (update_one id updates coll) = Some (updates ∪ doc).
Proof.
  intros Hu. unfold find_one. induction coll as [|d coll IH]; simpl; [discriminate|].
  destruct (matches_id id d) eqn:Hm.
  - intros [= ->]. simpl.
    assert (matches_id id (updates ∪ doc) = true) as ->; [|reflexivity].
    unfold matches_id in *. apply bool_decide_eq_true in Hm.
    apply bool_decide_eq_true. now rewrite lookup_union_r.
  - intros Hfind. simpl. rewrite Hm. auto.
Qed.

(** The dict of updates never touches [_id]. *)
Lemma build_updates_no_id title message expire_date start_date
    (updates : Doc) :
  build_updates title message expire_date start_date = Ok updates →
  updates !! "_id" = None.
Proof.
  unfold build_updates.
  destruct title as [t|], message as [m|], expire_date as [e|],
    start_date as [s|]; simpl;
    try destruct (is_none (parse_date (VStr e))); simpl; try discriminate;
    try destruct (negb (String.eqb s "") && is_none (parse_date (VStr s)));
    simpl; try discriminate; intros [= <-]; reflexivity.
Qed.

(** Past the three guards, the handler is its dict of updates. *)
Lemma update_announcement_found db aid title message expire_date start_date user
    t oid ann :
  find_one (VStr user) (teachers_collection db) = Some t →
  ObjectId_parse aid = Some oid →
  find_one (VOid oid) (announcements_collection db) = Some ann →
  update_announcement db aid title message expire_date start_date user
  = match build_updates title message expire_date start_date with
    | Raise e => (Raise e, db)
    | Ok updates =>
        if bool_decide (updates = ∅)
        then (Raise (HTTPException 400 "No updates provided"), db)
        else (Ok (serialize_ann (updates ∪ ann)),
              with_announcements db
                (update_one (VOid oid) updates (announcements_collection db)))
    end.
Proof.
  intros Ht Hoid Hann. unfold update_announcement. rewrite Ht, Hoid, Hann.
  destruct (build_updates title message expire_date start_date) as [updates|e] eqn:Hb;
    [|reflexivity].
  destruct (bool_decide (updates = ∅)); [reflexivity|]. simpl.
  now rewrite (find_one_update_one _ _ _ ann (build_updates_no_id _ _ _ _ _ Hb) Hann).
Qed.

(** A successful update with its effect on the record. *)
Lemma update_announcement_applies db aid title message expire_date start_date user
    t oid ann (updates : Doc) :
  find_one (VStr user) (teachers_collection db) = Some t →
  ObjectId_parse aid = Some oid →
  find_one (VOid oid) (announcements_collection db) = Some ann →
  build_updates title message expire_date start_date = Ok updates →
  updates ≠ ∅ →
  ∃ db',
    update_announcement db aid title message expire_date start_date user
    = (Ok (serialize_ann (updates ∪ ann)), db') ∧
    teachers_collection db' = teachers_collection db ∧
    find_one (VOid oid) (announcements_collection db') = Some (updates ∪ ann).
Proof.
  intros Ht Hoid Hann Hb Hne.
  rewrite (update_announcement_found _ _ _ _ _ _ _ t oid ann Ht Hoid Hann), Hb.
  rewrite bool_decide_eq_false_2 by assumption.
  eexists. split; [reflexivity|]. split; [reflexivity|]. simpl.
  apply find_one_update_one; [|assumption].
  eapply build_updates_no_id, Hb.
Qed.

(** The dict of updates when [expire_date] is omitted or parses. *)
Lemma build_updates_start title message expire_date (s : string) :
  (∀ e, expire_date = Some e → is_Some (parse_date (VStr e))) →
  (s ≠ "" → parse_date (VStr s) = None →
   build_updates title message expire_date (Some s)
   = Raise (HTTPException 400 "Invalid start_date format")) ∧
  (s = "" ∨ is_Some (parse_date (VStr s)) →
   ∃ updates : Doc,
     build_updates title message expire_date (Some s) = Ok updates ∧
     updates ≠ ∅ ∧
     updates !! "start_date" = Some (if negb (String.eqb s "") then VStr s else VNone)).
Proof.
  intros Hexp. unfold build_updates.
  set (u0 := match message with
             | Some m => <["message":=VStr m]>
                           match title with
                           | Some t => <["title":=VStr t]> (∅ : Doc)
                           | None => ∅
                           end
             | None => match title with
                       | Some t => <["title":=VStr t]> ∅
                       | None => ∅
                       end
             end).
  assert (∃ u1 : Doc,
            match expire_date with
            | Some e =>
                if is_none (parse_date (VStr e))
                then Raise (HTTPException 400 "Invalid expire_date format")
                else Ok (<["expire_date":=VStr e]> u0)
            | None => Ok u0
            end = Ok u1) as [u1 ->].
  { destruct expire_date as [e|]; [|eauto].
    destruct (Hexp e eq_refl) as [d ->]. simpl. eauto. }
  simpl. split.
  - intros Hs Hnone. rewrite Hnone. simpl.
    now destruct (String.eqb_spec s "").
  - intros Hok.
    assert (negb (String.eqb s "") && is_none (parse_date (VStr s)) = false) as ->.
    { destruct Hok as [-> | [d ->]]; [reflexivity|]. simpl. apply andb_false_r. }
    eexists. split; [reflexivity|]. split; [apply insert_non_empty|].
    apply lookup_insert_eq.
Qed.


(** ** C2, C3, C8: updates *)

(** C2, as the code has it. An update request that supplies none of
    [title], [message], [expire_date], [start_date] fails and leaves the
    database as it was; the failure is Unauthorized when the requester
    is not an existing staff account, else BadRequest "Invalid
    announcement id" when the id is malformed, else NotFound when no
    record has the id, else BadRequest "No updates provided". *)
Theorem update_without_fields db aid user :
  let r := update_announcement db aid None None None None user in
  r.2 = db ∧
  (find_one (VStr user) (teachers_collection db) = None →
   r.1 = Raise (Unauthorized "Authentication required")) ∧
  (is_Some (find_one (VStr user) (teachers_collection db)) →
   (ObjectId_parse aid = None →
    r.1 = Raise (BadRequest "Invalid announcement id")) ∧
   (∀ oid, ObjectId_parse aid = Some oid →
      (find_one (VOid oid) (announcements_collection db) = None →
       r.1 = Raise (NotFound "Announcement not found")) ∧
      (is_Some (find_one (VOid oid) (announcements_collection db)) →
       r.1 = Raise (BadRequest "No updates provided")))).
Proof.
  unfold update_announcement. simpl.
  destruct (find_one (VStr user) (teachers_collection db)) as [t|]; simpl.
  2:{ split; [reflexivity|]. split; [reflexivity|]. intros [? [=]]. }
  destruct (ObjectId_parse aid) as [oid|]; simpl.
  2:{ split; [reflexivity|]. split; [discriminate|]. intros _.
      split; [reflexivity|]. discriminate. }
  destruct (find_one (VOid oid) (announcements_collection db)) as [ann|] eqn:Hann;
    simpl; (split; [reflexivity|]); (split; [discriminate|]); intros _;
    (split; [discriminate|]); intros ? [= <-]; rewrite Hann.
  - split; [discriminate|reflexivity].
  - split; [reflexivity|]. intros [? [=]].
Qed.

(** C3, as the code has it. For every authorized update of an existing
    record whose [expire_date], if supplied, parses: a [start_date]
    supplied as a non-empty unparseable string fails with BadRequest
    "Invalid start_date format" and changes nothing; supplied as the
    empty string it sets the stored [start_date] to [None]; supplied as
    a parseable date it is stored as given, with no check against the
    stored [expire_date], so an update supplying only a [start_date]
    strictly after the stored [expire_date] succeeds and leaves the
    record with that [start_date] and its old [expire_date]. *)
Theorem update_start_date db aid title message expire_date (s : string) user oid ann :
  is_Some (find_one (VStr user) (teachers_collection db)) →
  ObjectId_parse aid = Some oid →
  find_one (VOid oid) (announcements_collection db) = Some ann →
  (∀ e, expire_date = Some e → is_Some (parse_date (VStr e))) →
  let r := update_announcement db aid title message expire_date (Some s) user in
  (s ≠ "" → parse_date (VStr s) = None →
   r = (Raise (BadRequest "Invalid start_date format"), db)) ∧
  (s = "" →
   ∃ ann', r.1 = Ok (serialize_ann ann') ∧
           find_one (VOid oid) (announcements_collection r.2) = Some ann' ∧
           ann' !! "start_date" = Some VNone) ∧
  (is_Some (parse_date (VStr s)) →
   ∃ ann', r.1 = Ok (serialize_ann ann') ∧
           find_one (VOid oid) (announcements_collection r.2) = Some ann' ∧
           ann' !! "start_date" = Some (VStr s)) ∧
  (∀ start exp,
     parse_date (VStr s) = Some start →
     parse_date (get "expire_date" ann) = Some exp →
     date_gt start exp = true →
     ∃ ann' db',
       update_announcement db aid None None None (Some s) user
       = (Ok (serialize_ann ann'), db') ∧
       find_one (VOid oid) (announcements_collection db') = Some ann' ∧
       ann' !! "start_date" = Some (VStr s) ∧
       ann' !! "expire_date" = ann !! "expire_date").
Proof.
  intros [t Ht] Hoid Hann Hexp r.
  destruct (build_updates_start title message expire_date s Hexp) as [Hbad Hgood].
  assert (s = "" ∨ is_Some (parse_date (VStr s)) →
          ∃ ann', r.1 = Ok (serialize_ann ann') ∧
                  find_one (VOid oid) (announcements_collection r.2) = Some ann' ∧
                  ann' !! "start_date"
                  = Some (if negb (String.eqb s "") then VStr s else VNone)) as Hset.
  { intros Hok. destruct (Hgood Hok) as (updates & Hb & Hne & Hlook).
    destruct (update_announcement_applies _ _ _ _ _ _ _ _ _ _ _ Ht Hoid Hann Hb Hne)
      as (db' & Hupd & _ & Hfind).
    exists (updates ∪ ann). subst r. rewrite Hupd. simpl.
    split; [reflexivity|]. split; [assumption|].
    now apply lookup_union_Some_l. }
  split; [|split; [|split]].
  - intros Hs Hnone. subst r.
    rewrite (update_announcement_found _ _ _ _ _ _ _ t oid ann Ht Hoid Hann).
    now rewrite (Hbad Hs Hnone).
  - intros ->. destruct Hset as (ann' & ? & ? & ?); eauto.
  - intros Hsome. destruct (Hset (or_intror Hsome)) as (ann' & ? & ? & Hl).
    exists ann'. split; [assumption|]. split; [assumption|].
    destruct (String.eqb_spec s ""); [|exact Hl].
    subst s. destruct Hsome as [d Hd]. discriminate.
  - intros start exp Hstart _ _.
    destruct (build_updates_start None None None s) as [_ Hgood']; [discriminate|].
    destruct Hgood' as (updates & Hb & Hne & Hlook); [right; eauto|].
    destruct (update_announcement_applies _ _ _ _ _ _ _ _ _ _ _ Ht Hoid Hann Hb Hne)
      as (db' & Hupd & _ & Hfind).
    exists (updates ∪ ann), db'. split; [assumption|]. split; [assumption|].
    assert (s ≠ "") as Hs by (intros ->; discriminate).
    unfold build_updates in Hb. simpl in Hb. rewrite Hstart in Hb.
    destruct (String.eqb_spec s ""); [contradiction|]. simpl in Hb.
    injection Hb as <-. split.
    + apply lookup_union_Some_l, lookup_insert_eq.
    + apply lookup_union_r. reflexivity.
Qed.

(** C8. For every authorized update of an existing record that supplies
    only [title], the record afterwards has the new title, and every
    other field of it, so [message], [start_date], [expire_date],
    [created_by] and [created_at], is as it was before. *)
Theorem update_title_only db aid (new_title : string) user oid ann :
  is_Some (find_one (VStr user) (teachers_collection db)) →
  ObjectId_parse aid = Some oid →
  find_one (VOid oid) (announcements_collection db) = Some ann →
  ∃ ann' db',
    update_announcement db aid (Some new_title) None None None user
    = (Ok (serialize_ann ann'), db') ∧
    find_one (VOid oid) (announcements_collection db') = Some ann' ∧
    ann' !! "title" = Some (VStr new_title) ∧
    (∀ k, k ≠ "title" → ann' !! k = ann !! k).
Proof.
  intros [t Ht] Hoid Hann.
  destruct (update_announcement_applies db aid (Some new_title) None None None
              user t oid ann {["title" := VStr new_title]} Ht Hoid Hann eq_refl)
    as (db' & Hupd & _ & Hfind).
  { apply insert_non_empty. }
  exists ({["title" := VStr new_title]} ∪ ann), db'.
  split; [assumption|]. split; [assumption|]. split.
  - apply lookup_union_Some_l, lookup_singleton_eq.
  - intros k Hk. apply lookup_union_r, lookup_singleton_ne. congruence.
Qed.

(** ** [delete_announcement] *)

Lemma delete_one_None (id : Value ObjectId) coll :
  find_one id coll = None → delete_one id coll = (coll, 0).
Proof.
  unfold find_one. induction coll as [|d coll IH]; simpl; [reflexivity|].
  destruct (matches_id id d); [discriminate|].
  intros Hnone. now rewrite (IH Hnone).
Qed.

Lemma delete_one_Some (id : Value ObjectId) coll doc :
  find_one id coll = Some doc →
  ∃ before after, coll = before ++ doc :: after ∧
                  find_one id before = None ∧
                  delete_one id coll = (before ++ after, 1).
Proof.
  unfold find_one. induction coll as [|d coll IH]; simpl; [discriminate|].
  destruct (matches_id id d) eqn:Hm.
  - intros [= ->]. exists [], coll. auto.
  - intros Hfind. destruct (IH Hfind) as (before & after & -> & Hnone & ->).
    exists (d :: before), after. simpl. rewrite Hm. auto.
Qed.

Lemma unique_ids_removed (id : Value ObjectId) before doc after :
  unique_ids (before ++ doc :: after) →
  doc !! "_id" = Some id →
  find_one id before = None →
  find_one id (before ++ after) = None.
Proof.
  unfold unique_ids. rewrite map_app. simpl. intros Hnd Hid Hbefore.
  apply NoDup_app in Hnd as (_ & _ & [Hfresh _]%NoDup_cons).
  apply find_one_None. intros d [Hd|Hd]%elem_of_app.
  - now apply (proj1 (find_one_None id before) Hbefore).
  - intros Hd'. apply Hfresh. rewrite Hid, <- Hd'.
    apply list_elem_of_In, in_map. now apply list_elem_of_In.
Qed.

(** ** Unique ids are kept by every handler *)

Lemma update_one_ids (id : Value ObjectId) (updates : Doc) coll :
  updates !! "_id" = None →
  map (fun d : Doc => d !! "_id") (update_one id updates coll)
  = map (fun d : Doc => d !! "_id") coll.
Proof.
  intros Hu. induction coll as [|d coll IH]; simpl; [reflexivity|].
  destruct (matches_id id d); simpl.
  - now rewrite lookup_union_r.
  - now rewrite IH.
Qed.

Lemma delete_one_sublist (id : Value ObjectId) coll :
  sublist (delete_one id coll).1 coll.
Proof.
  induction coll as [|d coll IH]; simpl; [constructor|].
  destruct (matches_id id d); simpl.
  - now apply sublist_cons.
  - destruct (delete_one id coll) as [rest n]. simpl in *. now apply sublist_skip.
Qed.

Lemma create_announcement_unique_ids db utcnow_iso fresh title message expire_date
    start_date user :
  unique_ids (announcements_collection db) →
  find_one (VOid fresh) (announcements_collection db) = None →
  unique_ids
    (announcements_collection
       (create_announcement db utcnow_iso fresh title message expire_date
          start_date user).2).
Proof.
  intros Hu Hfresh. unfold create_announcement.
  destruct (find_one (VStr user) (teachers_collection db)); [|exact Hu].
  destruct (parse_date (VStr expire_date)) as [exp|]; [|exact Hu].
  destruct (match parse_date (of_optional start_date) with
            | Some start => date_gt start exp
            | None => false
            end); [exact Hu|].
  simpl. unfold unique_ids. rewrite map_app. simpl.
  apply NoDup_app. split; [exact Hu|]. split; [|apply NoDup_singleton].
  intros i Hi Hi'%list_elem_of_singleton. subst i.
  apply list_elem_of_In, in_map_iff in Hi as (d & Hd & Hin).
  apply (proj1 (find_one_None _ _) Hfresh d); [now apply list_elem_of_In|].
  rewrite Hd. reflexivity.
Qed.

Lemma update_announcement_unique_ids db aid title message expire_date start_date user :
  unique_ids (announcements_collection db) →
  unique_ids
    (announcements_collection
       (update_announcement db aid title message expire_date start_date user).2).
Proof.
  intros Hu. unfold update_announcement.
  destruct (find_one (VStr user) (teachers_collection db)); [|exact Hu].
  destruct (ObjectId_parse aid) as [oid|]; [|exact Hu].
  destruct (find_one (VOid oid) (announcements_collection db)); [|exact Hu].
  destruct (build_updates title message expire_date start_date) as [updates|e] eqn:Hb;
    [|exact Hu].
  destruct (bool_decide (updates = ∅)); [exact Hu|].
  assert (unique_ids (update_one (VOid oid) updates (announcements_collection db)))
    as Hu'.
  { unfold unique_ids. rewrite update_one_ids; [exact Hu|].
    eapply build_updates_no_id, Hb. }
  simpl.
  now destruct (find_one (VOid oid)
                  (update_one (VOid oid) updates (announcements_collection db))).
Qed.

Lemma delete_announcement_unique_ids db aid user :
  unique_ids (announcements_collection db) →
  unique_ids (announcements_collection (delete_announcement db aid user).2).
Proof.
  intros Hu. unfold delete_announcement.
  destruct (find_one (VStr user) (teachers_collection db)); [|exact Hu].
  destruct (ObjectId_parse aid) as [oid|]; [|exact Hu].
  pose proof (delete_one_sublist (VOid oid) (announcements_collection db)) as Hsub.
  destruct (delete_one (VOid oid) (announcements_collection db)) as [anns n].
  simpl in Hsub.
  assert (unique_ids anns) as Hu'.
  { unfold unique_ids in *. eapply sublist_NoDup; [exact Hu|].
    clear Hu. induction Hsub; simpl; constructor; assumption. }
  now destruct (n =? 0)%nat.
Qed.


(** ** C7: deletion *)

(** C7. For every delete request by an authorized requester with a
    well-formed id: if no record has the id, the operation fails with
    NotFound and the database is unchanged; if a record has it, that
    record is removed and the confirmation is returned, after which no
    record has the id and a second delete of the same id fails with
    NotFound. *)
Theorem delete_announcement_then_not_found db aid user oid :
  is_Some (find_one (VStr user) (teachers_collection db)) →
  ObjectId_parse aid = Some oid →
  unique_ids (announcements_collection db) →
  (find_one (VOid oid) (announcements_collection db) = None →
   delete_announcement db aid user
   = (Raise (NotFound "Announcement not found"), db)) ∧
  (∀ ann, find_one (VOid oid) (announcements_collection db) = Some ann →
     ∃ db' before after,
       delete_announcement db aid user
       = (Ok {["message" := VStr "Announcement deleted"]}, db') ∧
       announcements_collection db = before ++ ann :: after ∧
       announcements_collection db' = before ++ after ∧
       teachers_collection db' = teachers_collection db ∧
       find_one (VOid oid) (announcements_collection db') = None ∧
       delete_announcement db' aid user
       = (Raise (NotFound "Announcement not found"), db')).
Proof.
  intros [t Ht] Hoid Hunique.
  assert (∀ db0, teachers_collection db0 = teachers_collection db →
                 find_one (VOid oid) (announcements_collection db0) = None →
                 delete_announcement db0 aid user
                 = (Raise (NotFound "Announcement not found"), db0)) as Hmissing.
  { intros db0 Hteachers Hnone. unfold delete_announcement.
    rewrite Hteachers, Ht, Hoid, (delete_one_None _ _ Hnone). simpl.
    now rewrite with_announcements_same. }
  split; [now apply Hmissing|].
  intros ann Hann.
  destruct (delete_one_Some _ _ _ Hann) as (before & after & Hcoll & Hbefore & Hdel).
  assert (find_one (VOid oid) (before ++ after) = None) as Hgone.
  { eapply unique_ids_removed; [rewrite <- Hcoll; exact Hunique| |exact Hbefore].
    now apply find_one_Some in Hann. }
  exists (with_announcements db (before ++ after)), before, after.
  split; [|split; [assumption|split; [reflexivity|split; [reflexivity|split]]]].
  - unfold delete_announcement. now rewrite Ht, Hoid, Hdel.
  - exact Hgone.
  - now apply Hmissing.
Qed.


(** * Further properties of the router *)

(** ** Helper facts *)

Lemma string_leb_not_ltb (a b : string) :
  String.leb a b = true → String.ltb b a = false.
Proof.
  unfold String.ltb, String.leb. rewrite (String.compare_antisym a b).
  now destruct (String.compare b a).
Qed.

Lemma string_not_ltb_trans (a b c : string) :
  String.ltb b a = false → String.ltb c b = false → String.ltb c a = false.
Proof.
  intros Hab%string_not_ltb_leb Hbc%string_not_ltb_leb.
  apply string_leb_not_ltb. eauto using string_leb_trans.
Qed.

(** The server's order is a total preorder: "not below" is transitive. *)
Lemma bson_not_lt_trans (x y z : option (Value ObjectId)) :
  bson_lt y x = false → bson_lt z y = false → bson_lt z x = false.
Proof.
  destruct x as [[|a|a|a]|], y as [[|b|b|b]|], z as [[|c|c|c]|]; simpl;
    try reflexivity; try discriminate.
  - rewrite !Z.ltb_ge. lia.
  - apply string_not_ltb_trans.
  - apply string_not_ltb_trans.
Qed.

Lemma bson_insert_sorted (field : string) (x : Doc) (l : list Doc) :
  StronglySorted (fun a b : Doc => bson_lt (b !! field) (a !! field) = false) l →
  StronglySorted (fun a b : Doc => bson_lt (b !! field) (a !! field) = false)
                 (bson_insert field x l).
Proof.
  induction l as [|y l IH]; intros Hs; simpl.
  - repeat constructor.
  - apply StronglySorted_inv in Hs as [Hs Hy].
    destruct (bson_lt (y !! field) (x !! field)) eqn:Hlt.
    + constructor; [auto|]. rewrite bson_insert_perm. constructor; [|assumption].
      destruct (bson_lt (x !! field) (y !! field)) eqn:Hxy; [|reflexivity].
      exfalso. clear -Hlt Hxy.
      destruct (y !! field) as [[|a|a|a]|], (x !! field) as [[|b|b|b]|];
        simpl in *; try discriminate.
      * apply Z.ltb_lt in Hlt, Hxy. lia.
      * apply string_ltb_leb, string_leb_not_ltb in Hlt. congruence.
      * apply string_ltb_leb, string_leb_not_ltb in Hlt. congruence.
    + constructor; [now constructor|]. constructor; [assumption|].
      eapply Forall_impl; [exact Hy|]. intros z Hz. simpl in Hz.
      eapply bson_not_lt_trans; eassumption.
Qed.

Lemma mongo_sort_sorted (field : string) coll :
  StronglySorted (fun a b : Doc => bson_lt (b !! field) (a !! field) = false)
                 (mongo_sort field coll).
Proof.
  unfold mongo_sort. induction coll as [|x coll IH]; simpl; [constructor|].
  now apply bson_insert_sorted.
Qed.

Lemma StronglySorted_weaken {A} (R R' : A → A → Prop) (l : list A) :
  (∀ a b, R a b → R' a b) → StronglySorted R l → StronglySorted R' l.
Proof.
  intros HR. induction 1 as [|a l Hs IH Ha]; constructor; [assumption|].
  eapply Forall_impl; [exact Ha|]. auto.
Qed.

Lemma StronglySorted_map {A B} (f : A → B) (R : B → B → Prop) (l : list A) :
  StronglySorted (fun a b => R (f a) (f b)) l → StronglySorted R (map f l).
Proof.
  induction 1 as [|a l Hs IH Ha]; simpl; constructor; [assumption|].
  apply Forall_forall. intros b (a' & <- & Hin)%list_elem_of_In%in_map_iff.
  rewrite Forall_forall in Ha. now apply Ha, list_elem_of_In.
Qed.

(** A record inside its window is what one turn of the loop collects. *)
Lemma active_step_active today ann :
  spec_active today ann → active_step today [] ann = [serialize_ann ann].
Proof.
  intros [[e [He Hge]] Hstart]. unfold active_step. rewrite He.
  destruct Hstart as [-> | [s [-> ->]]]; now rewrite Hge.
Qed.

Lemma flat_map_active today coll :
  Forall (spec_active today) coll →
  flat_map (active_step today []) coll = map serialize_ann coll.
Proof.
  induction 1 as [|ann coll Hann _ IH]; simpl; [reflexivity|].
  now rewrite (active_step_active today ann Hann), IH.
Qed.

(** Sorting a sorted list gives it back: ties keep their order. *)
Lemma py_insert_least key (x : Doc) (l : list Doc) :
  Forall (key_le key x) l → py_insert key x l = Ok (x :: l).
Proof.
  destruct l as [|y l]; [reflexivity|]. intros Hl.
  inversion Hl as [|? ? (sx & sy & Hx & Hy & Hle) _]; subst.
  simpl. rewrite Hx, Hy. simpl. now rewrite (string_leb_not_ltb _ _ Hle).
Qed.

Lemma py_sort_sorted_id key (l : list Doc) :
  StronglySorted (key_le key) l → py_sort key l = Ok l.
Proof.
  induction 1 as [|x l Hs IH Hx]; simpl; [reflexivity|].
  rewrite IH. simpl. now apply py_insert_least.
Qed.

(** ** X1 to X6: parsing, representations and the two listings *)

(** X1. [parse_date] gives a date exactly for a non-empty string that
    the ISO parser accepts: [None], the empty string, a value that is
    not a string and a string the parser rejects all give [None]. *)
Theorem parse_date_Some_iff (v : Value ObjectId) (d : date) :
  parse_date v = Some d ↔ ∃ s, v = VStr s ∧ s ≠ "" ∧ fromisoformat s = Some d.
Proof.
  split; [apply parse_date_Some_str|].
  intros (s & -> & Hs & Hd). now rewrite parse_date_str.
Qed.

(** X2. The representation never carries the store's [_id]; its [id]
    is the text of [_id], replacing any [id] field the document had,
    and the text [None] when the document has no [_id]; every other
    field is passed through unchanged. *)
Theorem serialize_ann_shape ann :
  serialize_ann ann !! "_id" = None ∧
  serialize_ann ann !! "id" = Some (VStr (py_str (get "_id" ann))) ∧
  (∀ k, k ≠ "_id" → k ≠ "id" → serialize_ann ann !! k = ann !! k) ∧
  (ann !! "_id" = None → serialize_ann ann !! "id" = Some (VStr "None")).
Proof.
  unfold serialize_ann. split; [|split; [|split]].
  - rewrite lookup_insert_ne by discriminate. apply lookup_delete_eq.
  - apply lookup_insert_eq.
  - intros k H1 H2. now apply serialize_ann_lookup.
  - intros Hid. rewrite lookup_insert_eq. unfold get, get_default. now rewrite Hid.
Qed.

(** X3. [list_announcements] returns the representations of all stored
    records, each once and nothing else: its output is a permutation of
    the serialized collection. *)
Theorem list_announcements_complete db :
  list_announcements db ≡ₚ map serialize_ann (announcements_collection db) ∧
  length (list_announcements db) = length (announcements_collection db) ∧
  (∀ x, x ∈ list_announcements db
        ↔ ∃ ann, ann ∈ announcements_collection db ∧ x = serialize_ann ann).
Proof.
  pose proof (list_announcements_perm db) as Hperm.
  split; [exact Hperm|]. split.
  - rewrite Hperm. apply length_map.
  - intros x. rewrite Hperm, list_elem_of_In, in_map_iff.
    split; intros (ann & Ha & Hb); exists ann.
    + split; [now apply list_elem_of_In | now symmetry].
    + split; [now symmetry | now apply list_elem_of_In].
Qed.

(** X4. [list_announcements] is in ascending order of [expire_date] as
    the store compares values: no entry is followed by one whose
    [expire_date] is strictly smaller, with missing and null dates
    first and strings in lexical order. *)
Theorem list_announcements_sorted db :
  StronglySorted
    (fun a b : Doc => bson_lt (b !! "expire_date") (a !! "expire_date") = false)
    (list_announcements db).
Proof.
  unfold list_announcements. rewrite fold_left_append. simpl.
  apply StronglySorted_map.
  eapply StronglySorted_weaken; [|apply (mongo_sort_sorted "expire_date")].
  intros a b Hab. simpl in *. now rewrite !serialize_ann_lookup by discriminate.
Qed.

(** X5. The active view is part of the full listing: every entry
    [list_active_announcements] returns is an entry of
    [list_announcements]. *)
Theorem list_active_within_list_all today db :
  ∃ out, list_active_announcements today db = Ok out ∧
         ∀ x, x ∈ out → x ∈ list_announcements db.
Proof.
  destruct (list_active_announcements_returns today db) as (out & Hout & Hperm & _).
  exists out. split; [assumption|]. intros x Hx.
  rewrite Hperm in Hx. apply elem_of_flat_map in Hx as (ann & Hin & Hx).
  apply active_step_spec in Hx as [-> _].
  rewrite list_announcements_perm. now apply list_elem_of_In, in_map, list_elem_of_In.
Qed.

(** X6. When every stored record is inside its window and the
    collection is already in ascending order of the raw [expire_date]
    text, the active view is the collection in store order: the sort
    moves nothing, so records with equal dates keep their order. *)
Theorem list_active_keeps_sorted_store_order today db :
  Forall (spec_active today) (announcements_collection db) →
  StronglySorted raw_expire_le (announcements_collection db) →
  list_active_announcements today db
  = Ok (map serialize_ann (announcements_collection db)).
Proof.
  intros Hact Hsorted. unfold list_active_announcements.
  rewrite fold_active_step. simpl. rewrite (flat_map_active today _ Hact).
  apply py_sort_sorted_id, StronglySorted_map.
  eapply StronglySorted_weaken; [|exact Hsorted].
  intros a b (sa & sb & Ha & Hb & Hle). exists sa, sb.
  unfold get_default. rewrite !serialize_ann_lookup by discriminate.
  now rewrite Ha, Hb.
Qed.


(** ** X7 to X12: more on creation *)

Lemma find_one_app (id : Value ObjectId) (l1 l2 : list Doc) :
  find_one id (l1 ++ l2)
  = match find_one id l1 with
    | Some d => Some d
    | None => find_one id l2
    end.
Proof.
  unfold find_one. induction l1 as [|d l1 IH]; simpl; [reflexivity|].
  now destruct (matches_id id d).
Qed.

Lemma delete_one_last (id : Value ObjectId) coll doc :
  find_one id coll = None → doc !! "_id" = Some id →
  delete_one id (coll ++ [doc]) = (coll, 1).
Proof.
  unfold find_one. intros Hnone Hid.
  induction coll as [|d coll IH]; simpl in *.
  - unfold matches_id. now rewrite bool_decide_eq_true_2.
  - destruct (matches_id id d); [discriminate|]. now rewrite (IH Hnone).
Qed.

Lemma with_announcements_twice db (a b : list Doc) :
  with_announcements (with_announcements db a) b = with_announcements db b.
Proof. reflexivity. Qed.

(** A create that returns, spelled out. *)
Lemma create_announcement_Ok db utcnow_iso fresh title message expire_date
    start_date user resp db' :
  create_announcement db utcnow_iso fresh title message expire_date start_date user
  = (Ok resp, db') →
  ∃ t exp stored,
    find_one (VStr user) (teachers_collection db) = Some t ∧
    parse_date (VStr expire_date) = Some exp ∧
    (parse_date (of_optional start_date) = None ∧ stored = VNone ∨
     ∃ start, parse_date (of_optional start_date) = Some start ∧
              date_gt start exp = false ∧ stored = of_optional start_date) ∧
    resp = serialize_ann
             (created_doc utcnow_iso fresh title message expire_date stored user) ∧
    db' = with_announcements db
            (announcements_collection db
             ++ [created_doc utcnow_iso fresh title message expire_date stored user]).
Proof.
  intros Hcreate.
  destruct (create_announcement_Ok_inv _ _ _ _ _ _ _ _ _ _ Hcreate)
    as (t & exp & Ht & Hexp).
  rewrite (create_announcement_checked _ _ _ _ _ _ _ _ t exp Ht Hexp) in Hcreate.
  destruct (parse_date (of_optional start_date)) as [start|] eqn:Hstart.
  - destruct (date_gt start exp) eqn:Hgt; [discriminate|].
    simpl in Hcreate. injection Hcreate as <- <-.
    exists t, exp, (of_optional start_date). repeat split; eauto.
  - simpl in Hcreate. injection Hcreate as <- <-.
    exists t, exp, VNone. repeat split; eauto.
Qed.

(** X7. Create fails as Unauthorized exactly when the requester is no
    stored teacher, whatever else the request holds, and with
    BadRequest "Invalid expire_date format, expected YYYY-MM-DD" exactly
    when the requester is a teacher and [expire_date] does not parse;
    whenever it raises, the database is as it was. *)
Theorem create_failure_modes db utcnow_iso fresh title message expire_date
    start_date user :
  let r := create_announcement db utcnow_iso fresh title message expire_date
             start_date user in
  (r.1 = Raise (Unauthorized "Authentication required")
   ↔ find_one (VStr user) (teachers_collection db) = None) ∧
  (r.1 = Raise (BadRequest "Invalid expire_date format, expected YYYY-MM-DD")
   ↔ is_Some (find_one (VStr user) (teachers_collection db)) ∧
     parse_date (VStr expire_date) = None) ∧
  (∀ e, r.1 = Raise e → r.2 = db).
Proof.
  unfold create_announcement.
  destruct (find_one (VStr user) (teachers_collection db)) as [t|]; simpl.
  2:{ split; [split; reflexivity|]. split; [|reflexivity].
      split; [discriminate|]. intros [[? [=]] _]. }
  destruct (parse_date (VStr expire_date)) as [exp|]; simpl.
  2:{ split; [split; discriminate|]. split; [|reflexivity].
      split; [eauto|reflexivity]. }
  destruct (match parse_date (of_optional start_date) with
            | Some start => date_gt start exp
            | None => false
            end); simpl.
  - split; [split; discriminate|]. split; [|reflexivity].
    split; [discriminate|]. intros [_ [=]].
  - split; [split; discriminate|]. split; [|discriminate].
    split; [discriminate|]. intros [_ [=]].
Qed.

(** X8. A create that returns appends one document and leaves the
    teachers alone.  The stored document carries the generated [_id]
    and no [id]; the returned representation is that document
    serialized, so it carries [id], the text of the generated id, and no
    [_id].  [expire_date] is stored as the text supplied, [created_by]
    is the requester and [created_at] the UTC time with a trailing Z. *)
Theorem create_response_shape db utcnow_iso fresh title message expire_date
    start_date user resp db' :
  create_announcement db utcnow_iso fresh title message expire_date start_date user
  = (Ok resp, db') →
  ∃ doc,
    announcements_collection db' = announcements_collection db ++ [doc] ∧
    teachers_collection db' = teachers_collection db ∧
    resp = serialize_ann doc ∧
    doc !! "_id" = Some (VOid fresh) ∧ doc !! "id" = None ∧
    resp !! "_id" = None ∧ resp !! "id" = Some (VStr (ObjectId_str fresh)) ∧
    doc !! "expire_date" = Some (VStr expire_date) ∧
    doc !! "created_by" = Some (VStr user) ∧
    doc !! "created_at" = Some (VStr (utcnow_iso ++ "Z")%string).
Proof.
  intros (t & exp & stored & _ & _ & _ & -> & ->)%create_announcement_Ok.
  eexists. split; [reflexivity|]. repeat split.
Qed.

(** X9. Creation keeps the order of the two dates: in the document a
    successful create stores, [start_date] is [None] or the supplied
    text, which then parses, and whenever both stored dates parse the
    start is not after the expiry. *)
Theorem create_keeps_date_order db utcnow_iso fresh title message expire_date
    start_date user resp db' :
  create_announcement db utcnow_iso fresh title message expire_date start_date user
  = (Ok resp, db') →
  ∃ doc,
    announcements_collection db' = announcements_collection db ++ [doc] ∧
    (doc !! "start_date" = Some VNone ∨
     ∃ s, start_date = Some s ∧ is_Some (parse_date (VStr s)) ∧
          doc !! "start_date" = Some (VStr s)) ∧
    (∀ s e, parse_date (get "start_date" doc) = Some s →
            parse_date (get "expire_date" doc) = Some e →
            date_gt s e = false).
Proof.
  intros (t & exp & stored & _ & Hexp & Hstored & _ & ->)%create_announcement_Ok.
  eexists. split; [reflexivity|].
  set (doc := created_doc utcnow_iso fresh title message expire_date stored user).
  assert (get "start_date" doc = stored) as Hs by reflexivity.
  assert (get "expire_date" doc = VStr expire_date) as He by reflexivity.
  assert (doc !! "start_date" = Some stored) as Hl by reflexivity.
  rewrite Hs, He, Hl, Hexp.
  destruct Hstored as [[_ ->] | (start & Hstart & Hgt & ->)].
  - split; [now left|]. intros s e [=].
  - split.
    + right. destruct start_date as [s|]; [|discriminate]. exists s. eauto.
    + rewrite Hstart. intros s e [= <-] [= <-]. exact Hgt.
Qed.

(** X10. Insert then look up: after a successful create under an id the
    collection did not hold, looking that id up finds the new document,
    whose serialization is what create returned, and every other lookup
    gives what it gave before. *)
Theorem create_then_find db utcnow_iso fresh title message expire_date
    start_date user resp db' :
  create_announcement db utcnow_iso fresh title message expire_date start_date user
  = (Ok resp, db') →
  find_one (VOid fresh) (announcements_collection db) = None →
  ∃ doc,
    find_one (VOid fresh) (announcements_collection db') = Some doc ∧
    resp = serialize_ann doc ∧
    ∀ id, id ≠ VOid fresh →
          find_one id (announcements_collection db')
          = find_one id (announcements_collection db).
Proof.
  intros (t & exp & stored & _ & _ & _ & -> & ->)%create_announcement_Ok Hfresh.
  set (doc := created_doc utcnow_iso fresh title message expire_date stored user).
  assert (doc !! "_id" = Some (VOid fresh)) as Hid by reflexivity.
  exists doc. simpl. split; [|split; [reflexivity|]].
  - rewrite find_one_app, Hfresh. simpl. unfold matches_id.
    now rewrite bool_decide_eq_true_2.
  - intros id Hne. rewrite find_one_app.
    destruct (find_one id (announcements_collection db)); [reflexivity|].
    simpl. unfold matches_id. rewrite bool_decide_eq_false_2; [reflexivity|].
    rewrite Hid. congruence.
Qed.

(** X11. Create then delete: deleting, under the text of its id, the
    record a create just added to a collection that did not hold that
    id returns the confirmation and gives back the database as it was
    before the create. *)
Theorem create_then_delete_restores db utcnow_iso fresh title message expire_date
    start_date user resp db' aid :
  create_announcement db utcnow_iso fresh title message expire_date start_date user
  = (Ok resp, db') →
  find_one (VOid fresh) (announcements_collection db) = None →
  ObjectId_parse aid = Some fresh →
  delete_announcement db' aid user
  = (Ok {["message" := VStr "Announcement deleted"]}, db).
Proof.
  intros (t & exp & stored & Ht & _ & _ & _ & ->)%create_announcement_Ok Hfresh Hoid.
  unfold delete_announcement. simpl. rewrite Ht, Hoid.
  rewrite (delete_one_last _ _ _ Hfresh) by reflexivity. simpl.
  now rewrite with_announcements_twice, with_announcements_same.
Qed.

(** X12. A record created inside its window is active at once: when
    the parsed [expire_date] is [today] or later and [start_date] is
    omitted, unparseable, or parses to a date after neither
    [expire_date] nor [today], create succeeds and the representation it
    returns is in the active view of the new database. *)
Theorem create_current_is_active db utcnow_iso fresh title message expire_date
    start_date user exp today :
  is_Some (find_one (VStr user) (teachers_collection db)) →
  parse_date (VStr expire_date) = Some exp →
  date_ge exp today = true →
  (∀ start, parse_date (of_optional start_date) = Some start →
            date_gt start exp = false ∧ date_gt start today = false) →
  ∃ resp db' out,
    create_announcement db utcnow_iso fresh title message expire_date start_date user
    = (Ok resp, db') ∧
    list_active_announcements today db' = Ok out ∧
    resp ∈ out.
Proof.
  intros [t Ht] Hexp Hge Hstart.
  rewrite (create_announcement_checked _ _ _ _ _ _ _ _ t exp Ht Hexp).
  assert (∀ stored,
            (parse_date stored = None ∨
             ∃ s, parse_date stored = Some s ∧ date_gt s today = false) →
            let doc := created_doc utcnow_iso fresh title message expire_date
                         stored user in
            let db' := with_announcements db (announcements_collection db ++ [doc]) in
            ∃ out, list_active_announcements today db' = Ok out ∧
                   serialize_ann doc ∈ out) as Hdoc.
  { intros stored Hs doc db'.
    destruct (list_active_elem today db' (serialize_ann doc)) as (out & Hout & Helem).
    exists out. split; [assumption|]. apply Helem. exists doc.
    split; [simpl; apply elem_of_app; right; now left|]. split; [reflexivity|].
    assert (get "start_date" doc = stored) as Hgs by reflexivity.
    assert (get "expire_date" doc = VStr expire_date) as Hge' by reflexivity.
    unfold spec_active. rewrite Hgs, Hge', Hexp. split; [eauto|exact Hs]. }
  destruct (parse_date (of_optional start_date)) as [start|] eqn:Hparse.
  - destruct (Hstart start eq_refl) as [-> Htoday].
    destruct (Hdoc (of_optional start_date)) as (out & Hout & Hin); [right; eauto|].
    eexists _, _, out. split; [reflexivity|]. split; assumption.
  - destruct (Hdoc VNone) as (out & Hout & Hin); [now left|].
    eexists _, _, out. split; [reflexivity|]. split; assumption.
Qed.


(** ** X13 to X18: more on updates *)

(** What [build_updates] puts in the dict: the supplied fields, under
    their names, and nothing else. *)
Lemma build_updates_lookup title message expire_date start_date (updates : Doc) :
  build_updates title message expire_date start_date = Ok updates →
  updates !! "title" = VStr <$> title ∧
  updates !! "message" = VStr <$> message ∧
  updates !! "expire_date" = VStr <$> expire_date ∧
  updates !! "start_date"
  = (fun s => if String.eqb s "" then VNone else VStr s) <$> start_date ∧
  (∀ k, k ≠ "title" → k ≠ "message" → k ≠ "expire_date" → k ≠ "start_date" →
        updates !! k = None).
Proof.
  unfold build_updates.
  destruct title as [t|], message as [m|], expire_date as [e|],
    start_date as [s|]; simpl;
    try destruct (is_none (parse_date (VStr e))); simpl; try discriminate;
    try destruct (String.eqb s ""); simpl;
    try destruct (is_none (parse_date (VStr s))); simpl; try discriminate;
    intros [= <-];
    (do 4 (split; [reflexivity|]));
    intros k H1 H2 H3 H4;
    repeat (rewrite lookup_insert_ne by congruence); apply lookup_empty.
Qed.

Lemma build_updates_Raise title message expire_date start_date (e : exn) :
  build_updates title message expire_date start_date = Raise e →
  e = HTTPException 400 "Invalid expire_date format" ∨
  e = HTTPException 400 "Invalid start_date format".
Proof.
  unfold build_updates.
  destruct title as [t|], message as [m|], expire_date as [x|],
    start_date as [s|]; simpl;
    try destruct (is_none (parse_date (VStr x))); simpl;
    try destruct (negb (String.eqb s "") && is_none (parse_date (VStr s)));
    simpl; intros [= <-]; auto.
Qed.

(** An update that returns, spelled out. *)
Lemma update_announcement_Ok db aid title message expire_date start_date user
    resp db' :
  update_announcement db aid title message expire_date start_date user
  = (Ok resp, db') →
  ∃ t oid ann (updates : Doc),
    find_one (VStr user) (teachers_collection db) = Some t ∧
    ObjectId_parse aid = Some oid ∧
    find_one (VOid oid) (announcements_collection db) = Some ann ∧
    build_updates title message expire_date start_date = Ok updates ∧
    updates ≠ ∅ ∧
    resp = serialize_ann (updates ∪ ann) ∧
    db' = with_announcements db
            (update_one (VOid oid) updates (announcements_collection db)).
Proof.
  intros Hupd.
  destruct (find_one (VStr user) (teachers_collection db)) as [t|] eqn:Ht.
  2:{ unfold update_announcement in Hupd. now rewrite Ht in Hupd. }
  destruct (ObjectId_parse aid) as [oid|] eqn:Hoid.
  2:{ unfold update_announcement in Hupd. now rewrite Ht, Hoid in Hupd. }
  destruct (find_one (VOid oid) (announcements_collection db)) as [ann|] eqn:Hann.
  2:{ unfold update_announcement in Hupd. now rewrite Ht, Hoid, Hann in Hupd. }
  rewrite (update_announcement_found _ _ _ _ _ _ _ t oid ann Ht Hoid Hann) in Hupd.
  destruct (build_updates title message expire_date start_date) as [updates|e] eqn:Hb;
    [|discriminate].
  destruct (bool_decide (updates = ∅)) eqn:Hempty; [discriminate|].
  apply bool_decide_eq_false in Hempty. injection Hupd as <- <-.
  exists t, oid, ann, updates. auto 10.
Qed.

Lemma find_one_update_one_ne (id id' : Value ObjectId) (updates : Doc) coll :
  updates !! "_id" = None →
  id' ≠ id →
  find_one id' (update_one id updates coll) = find_one id' coll.
Proof.
  intros Hu Hne. unfold find_one. induction coll as [|d coll IH]; simpl; [reflexivity|].
  destruct (matches_id id d) eqn:Hm; simpl.
  - assert (matches_id id' (updates ∪ d) = false) as ->.
    { unfold matches_id in *. apply bool_decide_eq_true in Hm.
      apply bool_decide_eq_false. rewrite lookup_union_r, Hm by assumption.
      congruence. }
    assert (matches_id id' d = false) as ->; [|reflexivity].
    unfold matches_id in *. apply bool_decide_eq_true in Hm.
    apply bool_decide_eq_false. rewrite Hm. congruence.
  - now rewrite IH.
Qed.

Lemma update_one_length (id : Value ObjectId) (updates : Doc) coll :
  length (update_one id updates coll) = length coll.
Proof.
  induction coll as [|d coll IH]; simpl; [reflexivity|].
  destruct (matches_id id d); simpl; congruence.
Qed.

Lemma update_one_twice (id : Value ObjectId) (updates : Doc) coll :
  updates !! "_id" = None →
  update_one id updates (update_one id updates coll) = update_one id updates coll.
Proof.
  intros Hu. induction coll as [|d coll IH]; simpl; [reflexivity|].
  destruct (matches_id id d) eqn:Hm; simpl.
  - assert (matches_id id (updates ∪ d) = true) as ->.
    { unfold matches_id in *. apply bool_decide_eq_true in Hm.
      apply bool_decide_eq_true. now rewrite lookup_union_r. }
    now rewrite (assoc_L (∪)), (idemp_L (∪)).
  - now rewrite Hm, IH.
Qed.

(** X13. Partial update, field by field: after an update that returns,
    each of [title], [message], [expire_date], [start_date] of the
    addressed record is the supplied value when one was supplied (an
    empty [start_date] stored as [None]) and its previous value when
    omitted; every other field, so [_id], [created_by] and
    [created_at], is as before; and the handler returns the record as it
    now is. *)
Theorem update_field_by_field db aid title message expire_date start_date user
    resp db' oid ann :
  update_announcement db aid title message expire_date start_date user
  = (Ok resp, db') →
  ObjectId_parse aid = Some oid →
  find_one (VOid oid) (announcements_collection db) = Some ann →
  ∃ ann',
    find_one (VOid oid) (announcements_collection db') = Some ann' ∧
    resp = serialize_ann ann' ∧
    ann' !! "title"
    = match title with Some t => Some (VStr t) | None => ann !! "title" end ∧
    ann' !! "message"
    = match message with Some m => Some (VStr m) | None => ann !! "message" end ∧
    ann' !! "expire_date"
    = match expire_date with
      | Some e => Some (VStr e)
      | None => ann !! "expire_date"
      end ∧
    ann' !! "start_date"
    = match start_date with
      | Some s => Some (if String.eqb s "" then VNone else VStr s)
      | None => ann !! "start_date"
      end ∧
    (∀ k, k ≠ "title" → k ≠ "message" → k ≠ "expire_date" → k ≠ "start_date" →
          ann' !! k = ann !! k).
Proof.
  intros (t & oid' & ann0 & updates & Ht & Hoid' & Hann0 & Hb & Hne & -> & ->)
    %update_announcement_Ok Hoid Hann.
  rewrite Hoid in Hoid'. injection Hoid' as <-.
  rewrite Hann in Hann0. injection Hann0 as <-.
  destruct (build_updates_lookup _ _ _ _ _ Hb) as (Ht' & Hm & He & Hs & Hk).
  exists (updates ∪ ann). split.
  { simpl. apply find_one_update_one; [|assumption]. eapply build_updates_no_id, Hb. }
  split; [reflexivity|].
  assert (∀ (k : string) (o : option (Value ObjectId)),
            updates !! k = o →
            (updates ∪ ann) !! k
            = match o with Some v => Some v | None => ann !! k end) as Hlook.
  { intros k [v|] Hl; [now apply lookup_union_Some_l | now apply lookup_union_r]. }
  split; [rewrite (Hlook _ _ Ht'); now destruct title|].
  split; [rewrite (Hlook _ _ Hm); now destruct message|].
  split; [rewrite (Hlook _ _ He); now destruct expire_date|].
  split; [rewrite (Hlook _ _ Hs); now destruct start_date|].
  intros k H1 H2 H3 H4. apply lookup_union_r. now apply Hk.
Qed.

(** X14. An update touches one record at most: whatever the request
    and its outcome, the collection keeps its length, and looking up any
    id other than the addressed one gives what it gave before. *)
Theorem update_other_records_untouched db aid title message expire_date start_date
    user oid (id : Value ObjectId) :
  ObjectId_parse aid = Some oid →
  id ≠ VOid oid →
  let r := update_announcement db aid title message expire_date start_date user in
  length (announcements_collection r.2) = length (announcements_collection db) ∧
  find_one id (announcements_collection r.2)
  = find_one id (announcements_collection db).
Proof.
  intros Hoid Hne. unfold update_announcement. rewrite Hoid.
  destruct (find_one (VStr user) (teachers_collection db)); [|auto].
  destruct (find_one (VOid oid) (announcements_collection db)); [|auto].
  destruct (build_updates title message expire_date start_date) as [updates|e] eqn:Hb;
    [|auto].
  destruct (bool_decide (updates = ∅)); [auto|].
  assert (updates !! "_id" = None) as Hu by (eapply build_updates_no_id, Hb).
  simpl.
  destruct (find_one (VOid oid)
              (update_one (VOid oid) updates (announcements_collection db)));
    simpl; (split; [apply update_one_length | now apply find_one_update_one_ne]).
Qed.

(** X15. For an authorized update of an existing record, the failure
    "No updates provided" is raised exactly when all four fields are
    omitted: a field supplied as the empty string counts as supplied. *)
Theorem update_no_updates_iff db aid title message expire_date start_date user
    oid ann :
  is_Some (find_one (VStr user) (teachers_collection db)) →
  ObjectId_parse aid = Some oid →
  find_one (VOid oid) (announcements_collection db) = Some ann →
  (update_announcement db aid title message expire_date start_date user).1
  = Raise (BadRequest "No updates provided")
  ↔ title = None ∧ message = None ∧ expire_date = None ∧ start_date = None.
Proof.
  intros [t Ht] Hoid Hann.
  rewrite (update_announcement_found _ _ _ _ _ _ _ t oid ann Ht Hoid Hann).
  split.
  - destruct (build_updates title message expire_date start_date) as [updates|e] eqn:Hb.
    + destruct (bool_decide (updates = ∅)) eqn:Hempty; [|discriminate]. intros _.
      apply bool_decide_eq_true in Hempty. subst updates.
      destruct (build_updates_lookup _ _ _ _ _ Hb) as (H1 & H2 & H3 & H4 & _).
      rewrite lookup_empty in H1, H2, H3, H4.
      symmetry in H1, H2, H3, H4. apply fmap_None in H1, H2, H3, H4. auto.
    + destruct (build_updates_Raise _ _ _ _ _ Hb) as [-> | ->]; discriminate.
  - intros (-> & -> & -> & ->). reflexivity.
Qed.

(** X16. An update that fails changes nothing, and it only ever fails
    with an HTTP error: the record re-read after the write is always
    found. *)
Theorem update_failure_leaves_database db aid title message expire_date start_date
    user (e : exn) :
  (update_announcement db aid title message expire_date start_date user).1 = Raise e →
  (update_announcement db aid title message expire_date start_date user).2 = db ∧
  ∃ status detail, e = HTTPException status detail.
Proof.
  unfold update_announcement.
  destruct (find_one (VStr user) (teachers_collection db)) as [t|];
    [|intros [= <-]; eauto].
  destruct (ObjectId_parse aid) as [oid|]; [|intros [= <-]; eauto].
  destruct (find_one (VOid oid) (announcements_collection db)) as [ann|] eqn:Hann;
    [|intros [= <-]; eauto].
  destruct (build_updates title message expire_date start_date) as [updates|e'] eqn:Hb.
  - destruct (bool_decide (updates = ∅)); [intros [= <-]; eauto|]. simpl.
    rewrite (find_one_update_one _ _ _ ann (build_updates_no_id _ _ _ _ _ Hb) Hann).
    discriminate.
  - intros [= <-]. split; [reflexivity|].
    destruct (build_updates_Raise _ _ _ _ _ Hb) as [-> | ->]; eauto.
Qed.

(** X17. [expire_date] on update: for an authorized update of an
    existing record, an [expire_date] that does not parse fails with
    BadRequest "Invalid expire_date format" whatever the other fields
    are, and changes nothing; a parseable one supplied alone is stored
    as given and leaves [start_date] as it was, with no check against
    it. *)
Theorem update_expire_date db aid title message (e : string) start_date user
    oid ann :
  is_Some (find_one (VStr user) (teachers_collection db)) →
  ObjectId_parse aid = Some oid →
  find_one (VOid oid) (announcements_collection db) = Some ann →
  (parse_date (VStr e) = None →
   update_announcement db aid title message (Some e) start_date user
   = (Raise (BadRequest "Invalid expire_date format"), db)) ∧
  (is_Some (parse_date (VStr e)) →
   ∃ ann' db',
     update_announcement db aid None None (Some e) None user
     = (Ok (serialize_ann ann'), db') ∧
     find_one (VOid oid) (announcements_collection db') = Some ann' ∧
     ann' !! "expire_date" = Some (VStr e) ∧
     ann' !! "start_date" = ann !! "start_date").
Proof.
  intros [t Ht] Hoid Hann. split.
  - intros Hnone.
    rewrite (update_announcement_found _ _ _ _ _ _ _ t oid ann Ht Hoid Hann).
    unfold build_updates. now rewrite Hnone.
  - intros [d Hd].
    destruct (update_announcement_applies db aid None None (Some e) None user
                t oid ann {["expire_date" := VStr e]} Ht Hoid Hann)
      as (db' & Hupd & _ & Hfind).
    { unfold build_updates. now rewrite Hd. }
    { apply insert_non_empty. }
    exists ({["expire_date" := VStr e]} ∪ ann), db'.
    split; [assumption|]. split; [assumption|]. split.
    + apply lookup_union_Some_l, lookup_singleton_eq.
    + apply lookup_union_r, lookup_singleton_ne. discriminate.
Qed.

(** X18. Repeating an update changes nothing further: the same request
    sent again after it returned returns the same representation and
    leaves the database as the first call left it. *)
Theorem update_twice db aid title message expire_date start_date user resp db' :
  update_announcement db aid title message expire_date start_date user
  = (Ok resp, db') →
  update_announcement db' aid title message expire_date start_date user
  = (Ok resp, db').
Proof.
  intros (t & oid & ann & updates & Ht & Hoid & Hann & Hb & Hne & -> & ->)
    %update_announcement_Ok.
  assert (updates !! "_id" = None) as Hu by (eapply build_updates_no_id, Hb).
  rewrite (update_announcement_found _ _ _ _ _ _ _ t oid (updates ∪ ann)); simpl;
    [|assumption|assumption|now apply find_one_update_one].
  rewrite Hb, bool_decide_eq_false_2 by assumption.
  rewrite update_one_twice by assumption.
  now rewrite (assoc_L (∪)), (idemp_L (∪)).
Qed.


(** ** X19 to X22: deletion and what every handler keeps *)

(** [delete_one] against [find_one]: nothing found, nothing removed;
    something found, one document less. *)
Lemma delete_one_result (id : Value ObjectId) coll :
  match find_one id coll with
  | None => delete_one id coll = (coll, 0)
  | Some _ => ∃ anns, delete_one id coll = (anns, 1) ∧ S (length anns) = length coll
  end.
Proof.
  destruct (find_one id coll) as [doc|] eqn:Hfind.
  - destruct (delete_one_Some _ _ _ Hfind) as (before & after & -> & _ & ->).
    eexists. split; [reflexivity|]. rewrite !length_app. simpl. lia.
  - now apply delete_one_None.
Qed.

Lemma find_one_delete_one_ne (id id' : Value ObjectId) coll :
  id' ≠ id → find_one id' (delete_one id coll).1 = find_one id' coll.
Proof.
  intros Hne. unfold find_one. induction coll as [|d coll IH]; simpl; [reflexivity|].
  destruct (matches_id id d) eqn:Hm; simpl.
  - assert (matches_id id' d = false) as ->; [|reflexivity].
    unfold matches_id in *. apply bool_decide_eq_true in Hm.
    apply bool_decide_eq_false. rewrite Hm. congruence.
  - destruct (delete_one id coll) as [rest n]. simpl in *. now rewrite IH.
Qed.

(** X19. A delete removes one record when it returns and none when it
    raises, and in both cases looking up any id other than the addressed
    one gives what it gave before. *)
Theorem delete_other_records_untouched db aid user oid (id : Value ObjectId) :
  ObjectId_parse aid = Some oid →
  id ≠ VOid oid →
  let r := delete_announcement db aid user in
  match r.1 with
  | Ok _ => S (length (announcements_collection r.2))
  | Raise _ => length (announcements_collection r.2)
  end = length (announcements_collection db) ∧
  find_one id (announcements_collection r.2)
  = find_one id (announcements_collection db).
Proof.
  intros Hoid Hne. unfold delete_announcement. rewrite Hoid.
  destruct (find_one (VStr user) (teachers_collection db)); [|auto].
  pose proof (delete_one_result (VOid oid) (announcements_collection db)) as Hres.
  pose proof (find_one_delete_one_ne (VOid oid) id (announcements_collection db) Hne)
    as Hother.
  destruct (find_one (VOid oid) (announcements_collection db)).
  - destruct Hres as (anns & Hdel & Hlen). rewrite Hdel in *. simpl in *. auto.
  - rewrite Hres in *. simpl in *. auto.
Qed.

(** X20. Delete fails as Unauthorized exactly when the requester is no
    stored teacher, with BadRequest "Invalid announcement id" exactly
    when the requester is a teacher and the id is malformed, and as
    NotFound exactly when the requester is a teacher, the id is
    well-formed and no record has it; whenever it raises, the database
    is as it was. *)
Theorem delete_failure_modes db aid user :
  let r := delete_announcement db aid user in
  (r.1 = Raise (Unauthorized "Authentication required")
   ↔ find_one (VStr user) (teachers_collection db) = None) ∧
  (r.1 = Raise (BadRequest "Invalid announcement id")
   ↔ is_Some (find_one (VStr user) (teachers_collection db)) ∧
     ObjectId_parse aid = None) ∧
  (r.1 = Raise (NotFound "Announcement not found")
   ↔ is_Some (find_one (VStr user) (teachers_collection db)) ∧
     ∃ oid, ObjectId_parse aid = Some oid ∧
            find_one (VOid oid) (announcements_collection db) = None) ∧
  (∀ e, r.1 = Raise e → r.2 = db).
Proof.
  unfold delete_announcement.
  destruct (find_one (VStr user) (teachers_collection db)) as [t|]; simpl.
  2:{ split; [split; reflexivity|]. split; [|split; [|reflexivity]].
      - split; [discriminate|]. intros [[? [=]] _].
      - split; [discriminate|]. intros [[? [=]] _]. }
  destruct (ObjectId_parse aid) as [oid|]; simpl.
  2:{ split; [split; discriminate|]. split; [|split; [|reflexivity]].
      - split; [eauto|reflexivity].
      - split; [discriminate|]. intros [_ [? [[=] _]]]. }
  pose proof (delete_one_result (VOid oid) (announcements_collection db)) as Hres.
  destruct (find_one (VOid oid) (announcements_collection db)) as [ann|] eqn:Hann.
  - destruct Hres as (anns & -> & _). simpl.
    split; [split; discriminate|]. split; [|split; [|discriminate]].
    + split; [discriminate|]. intros [_ [=]].
    + split; [discriminate|]. intros [_ [oid' [[= <-] Hnone]]]. congruence.
  - rewrite Hres. simpl. rewrite with_announcements_same.
    split; [split; discriminate|]. split; [|split; [|reflexivity]].
    + split; [discriminate|]. intros [_ [=]].
    + split; [eauto 6|reflexivity].
Qed.

(** X21. No handler writes to the teachers: create, update and delete
    leave [teachers_collection] as it was, whatever the request and its
    outcome. *)
Theorem handlers_keep_teachers db utcnow_iso fresh aid title message expire_date
    opt_title opt_message opt_expire_date start_date user :
  teachers_collection
    (create_announcement db utcnow_iso fresh title message expire_date
       start_date user).2 = teachers_collection db ∧
  teachers_collection
    (update_announcement db aid opt_title opt_message opt_expire_date
       start_date user).2 = teachers_collection db ∧
  teachers_collection (delete_announcement db aid user).2 = teachers_collection db.
Proof.
  split; [|split].
  - unfold create_announcement.
    destruct (find_one (VStr user) (teachers_collection db)); [|reflexivity].
    destruct (parse_date (VStr expire_date)) as [exp|]; [|reflexivity].
    now destruct (match parse_date (of_optional start_date) with
                  | Some start => date_gt start exp
                  | None => false
                  end).
  - unfold update_announcement.
    destruct (find_one (VStr user) (teachers_collection db)); [|reflexivity].
    destruct (ObjectId_parse aid) as [oid|]; [|reflexivity].
    destruct (find_one (VOid oid) (announcements_collection db)); [|reflexivity].
    destruct (build_updates opt_title opt_message opt_expire_date start_date)
      as [updates|e]; [|reflexivity].
    destruct (bool_decide (updates = ∅)); [reflexivity|]. simpl.
    now destruct (find_one (VOid oid)
                    (update_one (VOid oid) updates (announcements_collection db))).
  - unfold delete_announcement.
    destruct (find_one (VStr user) (teachers_collection db)); [|reflexivity].
    destruct (ObjectId_parse aid) as [oid|]; [|reflexivity].
    destruct (delete_one (VOid oid) (announcements_collection db)) as [anns n].
    now destruct (n =? 0)%nat.
Qed.

(** X22. Ids stay unique: from a collection in which no two records
    share an [_id], an update and a delete always lead to such a
    collection, and so does a create whose generated id the collection
    does not hold yet. *)
Theorem handlers_keep_unique_ids db utcnow_iso fresh aid title message expire_date
    opt_title opt_message opt_expire_date start_date user :
  unique_ids (announcements_collection db) →
  (find_one (VOid fresh) (announcements_collection db) = None →
   unique_ids
     (announcements_collection
        (create_announcement db utcnow_iso fresh title message expire_date
           start_date user).2)) ∧
  unique_ids
    (announcements_collection
       (update_announcement db aid opt_title opt_message opt_expire_date
          start_date user).2) ∧
  unique_ids (announcements_collection (delete_announcement db aid user).2).
Proof.
  intros Hu. split; [|split].
  - now apply create_announcement_unique_ids.
  - now apply update_announcement_unique_ids.
  - now apply delete_announcement_unique_ids.
Qed.


End Properties.

(** * The properties on the sample database *)

Section OnSample.
Import Concrete Sample.

Ltac by_computation := apply (bool_decide_unpack _); vm_compute; exact I.

Lemma alice_is_teacher :
  is_Some (find_one (VStr "alice") (teachers_collection db)).
Proof. exists alice. reflexivity. Defined.

Lemma exam_notice_found :
  find_one (VOid 1%N) (announcements_collection db) = Some exam_notice.
Proof. reflexivity. Defined.

Lemma list_active_includes_iff_witness :
  exam_notice ∈ announcements_collection db ∧
  ∃ out, list_active_announcements today db = Ok out ∧
         (serialize_ann exam_notice ∈ out ↔ spec_active today exam_notice) ∧
         (parse_date (get "expire_date" exam_notice) = None →
          serialize_ann exam_notice ∉ out).
Proof.
  assert (exam_notice ∈ announcements_collection db) as Hin by by_computation.
  split; [exact Hin|]. exact (list_active_includes_iff today db exam_notice Hin).
Defined.

Lemma create_start_after_expire_iff_witness :
  is_Some (find_one (VStr "alice") (teachers_collection db)) ∧
  parse_date (VStr "2099-01-01") = Some (mkdate 2099 1 1) ∧
  parse_date (VStr "2099-06-01") = Some (mkdate 2099 6 1) ∧
  let r := create_announcement db "2026-11-03T10:00:00" 6%N "Exam Notice"
             "Midterm moved" "2099-01-01" (Some "2099-06-01") "alice" in
  (r.1 = Raise (BadRequest "start_date cannot be after expire_date")
   ↔ date_gt (mkdate 2099 6 1) (mkdate 2099 1 1) = true) ∧
  (date_gt (mkdate 2099 6 1) (mkdate 2099 1 1) = false → ∃ resp, r.1 = Ok resp) ∧
  (mkdate 2099 6 1 = mkdate 2099 1 1 → ∃ resp, r.1 = Ok resp).
Proof.
  split; [exact alice_is_teacher|]. split; [reflexivity|]. split; [reflexivity|].
  exact (create_start_after_expire_iff db "2026-11-03T10:00:00" 6%N "Exam Notice"
           "Midterm moved" "2099-01-01" "2099-06-01" "alice"
           (mkdate 2099 1 1) (mkdate 2099 6 1) alice_is_teacher eq_refl eq_refl).
Defined.

Lemma create_unparseable_start_stored_absent_witness :
  is_Some (find_one (VStr "alice") (teachers_collection db)) ∧
  parse_date (VStr "2099-01-01") = Some (mkdate 2099 1 1) ∧
  parse_date (VStr "next week") = None ∧
  ∃ doc,
    create_announcement db "2026-11-03T10:00:00" 6%N "Exam Notice" "Midterm moved"
      "2099-01-01" (Some "next week") "alice"
    = (Ok (serialize_ann doc),
       with_announcements db (announcements_collection db ++ [doc])) ∧
    doc !! "_id" = Some (VOid 6%N) ∧
    doc !! "start_date" = Some VNone.
Proof.
  split; [exact alice_is_teacher|]. split; [reflexivity|]. split; [reflexivity|].
  exact (create_unparseable_start_stored_absent db "2026-11-03T10:00:00" 6%N
           "Exam Notice" "Midterm moved" "2099-01-01" "next week" "alice"
           (mkdate 2099 1 1) alice_is_teacher eq_refl eq_refl).
Defined.

(** C6 fails as stated: a create with an empty title and an empty
    message succeeds and stores the two empty texts. *)
Lemma create_empty_title_counterexample :
  ∃ doc,
    create_announcement db "2026-11-03T10:00:00" 6%N "" "" "2099-01-01" None "alice"
    = (Ok (serialize_ann doc),
       with_announcements db (announcements_collection db ++ [doc])) ∧
    doc !! "title" = Some (VStr "") ∧
    doc !! "message" = Some (VStr "").
Proof.
  exists (created_doc (ObjectId:=N) "2026-11-03T10:00:00" 6%N "" "" "2099-01-01"
            VNone "alice").
  split; [reflexivity|]. split; reflexivity.
Qed.

Lemma create_stores_title_and_message_as_given_witness :
  let doc := created_doc "2026-11-03T10:00:00" 6%N "Exam Notice" "Midterm moved"
               "2099-01-01" VNone "alice" in
  let db' := with_announcements db (announcements_collection db ++ [doc]) in
  create_announcement db "2026-11-03T10:00:00" 6%N "Exam Notice" "Midterm moved"
    "2099-01-01" None "alice" = (Ok (serialize_ann doc), db') ∧
  (∃ doc, announcements_collection db' = announcements_collection db ++ [doc] ∧
          doc !! "title" = Some (VStr "Exam Notice") ∧
          doc !! "message" = Some (VStr "Midterm moved")) ∧
  (∀ title' message', ∃ resp' db'',
      create_announcement db "2026-11-03T10:00:00" 6%N title' message' "2099-01-01"
        None "alice" = (Ok resp', db'')).
Proof.
  intros doc db'.
  assert (create_announcement db "2026-11-03T10:00:00" 6%N "Exam Notice"
            "Midterm moved" "2099-01-01" None "alice" = (Ok (serialize_ann doc), db'))
    as Hcreate by reflexivity.
  split; [exact Hcreate|].
  exact (create_stores_title_and_message_as_given db "2026-11-03T10:00:00" 6%N
           "Exam Notice" "Midterm moved" "2099-01-01" None "alice"
           (serialize_ann doc) db' Hcreate).
Defined.

(** C10 fails as stated: an authorized create with a parseable
    [expire_date] is refused when its [start_date] is after it. *)
Lemma create_refused_counterexample :
  is_Some (find_one (VStr "alice") (teachers_collection db)) ∧
  parse_date (VStr "2020-01-01") = Some (mkdate 2020 1 1) ∧
  create_announcement db "2026-11-03T10:00:00" 6%N "Science Fair" "Gym, 3pm"
    "2020-01-01" (Some "2020-06-01") "alice"
  = (Raise (BadRequest "start_date cannot be after expire_date"), db).
Proof.
  split; [exact alice_is_teacher|]. split; [reflexivity|]. reflexivity.
Qed.

Lemma create_expired_listed_not_active_witness :
  is_Some (find_one (VStr "alice") (teachers_collection db)) ∧
  parse_date (VStr "2020-01-01") = Some (mkdate 2020 1 1) ∧
  (∀ start, parse_date (of_optional (Some "2019-12-01")) = Some start →
            date_gt start (mkdate 2020 1 1) = false) ∧
  date_gt today (mkdate 2020 1 1) = true ∧
  ∃ doc db',
    create_announcement db "2026-11-03T10:00:00" 6%N "Science Fair" "Gym, 3pm"
      "2020-01-01" (Some "2019-12-01") "alice" = (Ok (serialize_ann doc), db') ∧
    announcements_collection db' = announcements_collection db ++ [doc] ∧
    doc !! "expire_date" = Some (VStr "2020-01-01") ∧
    serialize_ann doc ∈ list_announcements db' ∧
    ∃ out, list_active_announcements today db' = Ok out ∧
           serialize_ann doc ∉ out.
Proof.
  assert (∀ start, parse_date (of_optional (Some "2019-12-01")) = Some start →
                   date_gt start (mkdate 2020 1 1) = false) as Hstart.
  { intros start Hparse.
    assert (parse_date (of_optional (Some "2019-12-01")) = Some (mkdate 2019 12 1))
      as Hval by reflexivity.
    rewrite Hval in Hparse. injection Hparse as <-. reflexivity. }
  split; [exact alice_is_teacher|]. split; [reflexivity|]. split; [exact Hstart|].
  split; [reflexivity|].
  destruct (create_expired_listed_not_active db "2026-11-03T10:00:00" 6%N
              "Science Fair" "Gym, 3pm" "2020-01-01" (Some "2019-12-01") "alice"
              (mkdate 2020 1 1) alice_is_teacher eq_refl Hstart)
    as (doc & db' & Hcreate & Hcoll & Hfield & Hlists).
  exists doc, db'. split; [exact Hcreate|]. split; [exact Hcoll|].
  split; [exact Hfield|]. exact (Hlists today eq_refl).
Defined.

(** C2 fails as stated: an update without fields from a requester who
    is no staff account is Unauthorized, not BadRequest. *)
Lemma update_without_fields_counterexample :
  find_one (VStr "mallory") (teachers_collection db) = None ∧
  update_announcement db exam_notice_id None None None None "mallory"
  = (Raise (Unauthorized "Authentication required"), db) ∧
  (update_announcement db exam_notice_id None None None None "mallory").1
  ≠ Raise (BadRequest "No updates provided").
Proof.
  split; [reflexivity|]. split; [reflexivity|].
  vm_compute. discriminate.
Qed.

Lemma update_without_fields_witness :
  find_one (VStr "mallory") (teachers_collection db) = None ∧
  is_Some (find_one (VStr "alice") (teachers_collection db)) ∧
  ObjectId_parse "not-an-id" = None ∧
  ObjectId_parse unused_id = Some 255%N ∧
  find_one (VOid 255%N) (announcements_collection db) = None ∧
  ObjectId_parse exam_notice_id = Some 1%N ∧
  is_Some (find_one (VOid 1%N) (announcements_collection db)) ∧
  (update_announcement db exam_notice_id None None None None "mallory").1
  = Raise (Unauthorized "Authentication required") ∧
  (update_announcement db "not-an-id" None None None None "alice").1
  = Raise (BadRequest "Invalid announcement id") ∧
  (update_announcement db unused_id None None None None "alice").1
  = Raise (NotFound "Announcement not found") ∧
  (update_announcement db exam_notice_id None None None None "alice").1
  = Raise (BadRequest "No updates provided") ∧
  (update_announcement db exam_notice_id None None None None "alice").2 = db.
Proof.
  assert (is_Some (find_one (VOid 1%N) (announcements_collection db))) as Hfound
      by (exists exam_notice; reflexivity).
  do 7 (split; [first [exact alice_is_teacher | exact Hfound | reflexivity]|]).
  pose proof (update_without_fields db exam_notice_id "mallory") as (_ & Hno & _).
  pose proof (update_without_fields db "not-an-id" "alice") as (_ & _ & Hbad).
  pose proof (update_without_fields db unused_id "alice") as (_ & _ & Hmiss).
  pose proof (update_without_fields db exam_notice_id "alice") as (Hdb & _ & Hnone).
  split; [exact (Hno eq_refl)|].
  split; [exact (proj1 (Hbad alice_is_teacher) eq_refl)|].
  split; [exact (proj1 (proj2 (Hmiss alice_is_teacher) 255%N eq_refl) eq_refl)|].
  split; [exact (proj2 (proj2 (Hnone alice_is_teacher) 1%N eq_refl) Hfound)|].
  exact Hdb.
Defined.

(** C3 fails as stated: when the same request also carries an
    unparseable [expire_date], that is the error reported, and an empty
    [start_date] clears nothing. *)
Lemma update_start_date_counterexample :
  is_Some (find_one (VStr "alice") (teachers_collection db)) ∧
  find_one (VOid 1%N) (announcements_collection db) = Some exam_notice ∧
  parse_date (VStr "not-a-date") = None ∧
  update_announcement db exam_notice_id None None (Some "not-a-date")
    (Some "not-a-date") "alice"
  = (Raise (BadRequest "Invalid expire_date format"), db) ∧
  (update_announcement db exam_notice_id None None (Some "not-a-date")
     (Some "not-a-date") "alice").1
  ≠ Raise (BadRequest "Invalid start_date format") ∧
  update_announcement db exam_notice_id None None (Some "not-a-date") (Some "") "alice"
  = (Raise (BadRequest "Invalid expire_date format"), db).
Proof.
  split; [exact alice_is_teacher|]. split; [reflexivity|]. split; [reflexivity|].
  split; [reflexivity|]. split; [vm_compute; discriminate|].
  reflexivity.
Qed.

Lemma update_start_date_witness :
  is_Some (find_one (VStr "alice") (teachers_collection db)) ∧
  ObjectId_parse exam_notice_id = Some 1%N ∧
  find_one (VOid 1%N) (announcements_collection db) = Some exam_notice ∧
  (∀ e, (None : option string) = Some e → is_Some (parse_date (VStr e))) ∧
  parse_date (VStr "2199-01-01") = Some (mkdate 2199 1 1) ∧
  parse_date (get "expire_date" exam_notice) = Some (mkdate 2099 1 1) ∧
  date_gt (mkdate 2199 1 1) (mkdate 2099 1 1) = true ∧
  parse_date (VStr "next week") = None ∧
  update_announcement db exam_notice_id (Some "Exam Notice 2") None None
    (Some "next week") "alice"
  = (Raise (BadRequest "Invalid start_date format"), db) ∧
  (∃ ann',
     (update_announcement db exam_notice_id None None None (Some "") "alice").1
     = Ok (serialize_ann ann') ∧
     ann' !! "start_date" = Some VNone) ∧
  (∃ ann' db',
     update_announcement db exam_notice_id None None None (Some "2199-01-01") "alice"
     = (Ok (serialize_ann ann'), db') ∧
     find_one (VOid 1%N) (announcements_collection db') = Some ann' ∧
     ann' !! "start_date" = Some (VStr "2199-01-01") ∧
     ann' !! "expire_date" = exam_notice !! "expire_date").
Proof.
  assert (∀ e, (None : option string) = Some e → is_Some (parse_date (VStr e)))
    as Hexp by discriminate.
  do 8 (split; [first [exact alice_is_teacher | exact Hexp | reflexivity]|]).
  pose proof (update_start_date db exam_notice_id (Some "Exam Notice 2") None None
                "next week" "alice" 1%N exam_notice alice_is_teacher eq_refl
                eq_refl Hexp) as (Hbad & _).
  pose proof (update_start_date db exam_notice_id None None None
                "" "alice" 1%N exam_notice alice_is_teacher eq_refl
                eq_refl Hexp) as (_ & Hclear & _).
  pose proof (update_start_date db exam_notice_id None None None
                "2199-01-01" "alice" 1%N exam_notice alice_is_teacher eq_refl
                eq_refl Hexp) as (_ & _ & _ & Hlate).
  split; [apply Hbad; [discriminate | reflexivity]|].
  split.
  - destruct (Hclear eq_refl) as (ann' & Hresp & _ & Hfield). eauto.
  - exact (Hlate (mkdate 2199 1 1) (mkdate 2099 1 1) eq_refl eq_refl eq_refl).
Defined.

Lemma update_title_only_witness :
  is_Some (find_one (VStr "alice") (teachers_collection db)) ∧
  ObjectId_parse exam_notice_id = Some 1%N ∧
  find_one (VOid 1%N) (announcements_collection db) = Some exam_notice ∧
  ∃ ann' db',
    update_announcement db exam_notice_id (Some "Exam moved") None None None "alice"
    = (Ok (serialize_ann ann'), db') ∧
    find_one (VOid 1%N) (announcements_collection db') = Some ann' ∧
    ann' !! "title" = Some (VStr "Exam moved") ∧
    (∀ k, k ≠ "title" → ann' !! k = exam_notice !! k).
Proof.
  split; [exact alice_is_teacher|]. split; [reflexivity|]. split; [reflexivity|].
  exact (update_title_only db exam_notice_id "Exam moved" "alice" 1%N exam_notice
           alice_is_teacher eq_refl eq_refl).
Defined.

Lemma sample_unique_ids : unique_ids (announcements_collection db).
Proof. unfold unique_ids. by_computation. Defined.

Lemma delete_announcement_then_not_found_witness :
  is_Some (find_one (VStr "alice") (teachers_collection db)) ∧
  ObjectId_parse exam_notice_id = Some 1%N ∧
  ObjectId_parse unused_id = Some 255%N ∧
  unique_ids (announcements_collection db) ∧
  find_one (VOid 255%N) (announcements_collection db) = None ∧
  find_one (VOid 1%N) (announcements_collection db) = Some exam_notice ∧
  delete_announcement db unused_id "alice"
  = (Raise (NotFound "Announcement not found"), db) ∧
  ∃ db' before after,
    delete_announcement db exam_notice_id "alice"
    = (Ok {["message" := VStr "Announcement deleted"]}, db') ∧
    announcements_collection db = before ++ exam_notice :: after ∧
    announcements_collection db' = before ++ after ∧
    teachers_collection db' = teachers_collection db ∧
    find_one (VOid 1%N) (announcements_collection db') = None ∧
    delete_announcement db' exam_notice_id "alice"
    = (Raise (NotFound "Announcement not found"), db').
Proof.
  do 6 (split; [first [exact alice_is_teacher | exact sample_unique_ids
                       | reflexivity]|]).
  split.
  - exact (proj1 (delete_announcement_then_not_found db unused_id "alice" 255%N
                    alice_is_teacher eq_refl sample_unique_ids) eq_refl).
  - exact (proj2 (delete_announcement_then_not_found db exam_notice_id "alice" 1%N
                    alice_is_teacher eq_refl sample_unique_ids) exam_notice eq_refl).
Defined.


(** ** The further properties on the sample database *)

Lemma parse_date_Some_iff_witness :
  parse_date (VStr "2099-01-01") = Some (mkdate 2099 1 1).
Proof.
  apply (proj2 (parse_date_Some_iff (VStr "2099-01-01") (mkdate 2099 1 1))).
  exists "2099-01-01". split; [reflexivity|]. split; [discriminate|reflexivity].
Defined.

Lemma serialize_ann_shape_witness :
  let no_id : gmap string (Value N) := {["title" := VStr "Draft"]} in
  no_id !! "_id" = None ∧
  serialize_ann no_id !! "id" = Some (VStr "None") ∧
  serialize_ann exam_notice !! "title" = exam_notice !! "title".
Proof.
  intros no_id. split; [reflexivity|]. split.
  - exact (proj2 (proj2 (proj2 (serialize_ann_shape no_id))) eq_refl).
  - apply (proj1 (proj2 (proj2 (serialize_ann_shape exam_notice)))); discriminate.
Defined.

Lemma current_all_active :
  Forall (spec_active today) (announcements_collection current).
Proof.
  constructor; [|constructor; [|constructor]].
  - split; [exists (mkdate 2027 5 1); split; reflexivity|].
    right. exists (mkdate 2026 10 1). split; reflexivity.
  - split; [exists (mkdate 2099 1 1); split; reflexivity|]. left. reflexivity.
Defined.

Lemma current_in_order :
  StronglySorted raw_expire_le (announcements_collection current).
Proof.
  constructor; [constructor; [constructor|constructor]|].
  constructor; [|constructor].
  exists "2027-05-01", "2099-01-01". split; [reflexivity|]. split; reflexivity.
Defined.

Lemma list_active_keeps_sorted_store_order_witness :
  Forall (spec_active today) (announcements_collection current) ∧
  StronglySorted raw_expire_le (announcements_collection current) ∧
  list_active_announcements today current
  = Ok [serialize_ann field_trip; serialize_ann exam_notice].
Proof.
  split; [exact current_all_active|]. split; [exact current_in_order|].
  exact (list_active_keeps_sorted_store_order today current
           current_all_active current_in_order).
Defined.

Lemma create_failure_modes_witness :
  find_one (VStr "mallory") (teachers_collection db) = None ∧
  let r := create_announcement db "2026-11-03T10:00:00" 6%N "Exam Notice"
             "Midterm moved" "not-a-date" None "mallory" in
  r.1 = Raise (Unauthorized "Authentication required") ∧ r.2 = db.
Proof.
  split; [reflexivity|]. intros r.
  destruct (create_failure_modes db "2026-11-03T10:00:00" 6%N "Exam Notice"
              "Midterm moved" "not-a-date" None "mallory") as (Hno & _ & Hdb).
  assert (r.1 = Raise (Unauthorized "Authentication required")) as Hr
      by exact (proj2 Hno eq_refl).
  split; [exact Hr|]. exact (Hdb _ Hr).
Defined.

Lemma sample_create :
  ∃ resp db',
    create_announcement db "2026-11-03T10:00:00" 6%N "Exam Notice" "Midterm moved"
      "2099-01-01" (Some "2026-11-01") "alice" = (Ok resp, db').
Proof. eexists _, _. reflexivity. Defined.

Lemma create_response_shape_witness :
  ∃ resp db' doc,
    create_announcement db "2026-11-03T10:00:00" 6%N "Exam Notice" "Midterm moved"
      "2099-01-01" (Some "2026-11-01") "alice" = (Ok resp, db') ∧
    announcements_collection db' = announcements_collection db ++ [doc] ∧
    teachers_collection db' = teachers_collection db ∧
    resp = serialize_ann doc ∧
    doc !! "_id" = Some (VOid 6%N) ∧ doc !! "id" = None ∧
    resp !! "_id" = None ∧ resp !! "id" = Some (VStr new_id) ∧
    doc !! "expire_date" = Some (VStr "2099-01-01") ∧
    doc !! "created_by" = Some (VStr "alice") ∧
    doc !! "created_at" = Some (VStr "2026-11-03T10:00:00Z").
Proof.
  destruct sample_create as (resp & db' & Hcreate).
  destruct (create_response_shape _ _ _ _ _ _ _ _ _ _ Hcreate) as (doc & Hdoc).
  exists resp, db', doc. split; [exact Hcreate|]. exact Hdoc.
Defined.

Lemma create_keeps_date_order_witness :
  ∃ resp db' doc,
    create_announcement db "2026-11-03T10:00:00" 6%N "Exam Notice" "Midterm moved"
      "2099-01-01" (Some "2026-11-01") "alice" = (Ok resp, db') ∧
    announcements_collection db' = announcements_collection db ++ [doc] ∧
    (doc !! "start_date" = Some VNone ∨
     ∃ s, Some "2026-11-01" = Some s ∧ is_Some (parse_date (VStr s)) ∧
          doc !! "start_date" = Some (VStr s)) ∧
    (∀ s e, parse_date (get "start_date" doc) = Some s →
            parse_date (get "expire_date" doc) = Some e →
            date_gt s e = false).
Proof.
  destruct sample_create as (resp & db' & Hcreate).
  destruct (create_keeps_date_order _ _ _ _ _ _ _ _ _ _ Hcreate) as (doc & Hdoc).
  exists resp, db', doc. split; [exact Hcreate|]. exact Hdoc.
Defined.

Lemma create_then_find_witness :
  find_one (VOid 6%N) (announcements_collection db) = None ∧
  ∃ resp db' doc,
    create_announcement db "2026-11-03T10:00:00" 6%N "Exam Notice" "Midterm moved"
      "2099-01-01" (Some "2026-11-01") "alice" = (Ok resp, db') ∧
    find_one (VOid 6%N) (announcements_collection db') = Some doc ∧
    resp = serialize_ann doc ∧
    ∀ id, id ≠ VOid 6%N →
          find_one id (announcements_collection db')
          = find_one id (announcements_collection db).
Proof.
  split; [reflexivity|].
  destruct sample_create as (resp & db' & Hcreate).
  destruct (create_then_find _ _ _ _ _ _ _ _ _ _ Hcreate eq_refl) as (doc & Hdoc).
  exists resp, db', doc. split; [exact Hcreate|]. exact Hdoc.
Defined.

Lemma create_then_delete_restores_witness :
  find_one (VOid 6%N) (announcements_collection db) = None ∧
  ObjectId_parse new_id = Some 6%N ∧
  ∃ resp db',
    create_announcement db "2026-11-03T10:00:00" 6%N "Exam Notice" "Midterm moved"
      "2099-01-01" (Some "2026-11-01") "alice" = (Ok resp, db') ∧
    delete_announcement db' new_id "alice"
    = (Ok {["message" := VStr "Announcement deleted"]}, db).
Proof.
  split; [reflexivity|]. split; [reflexivity|].
  destruct sample_create as (resp & db' & Hcreate).
  exists resp, db'. split; [exact Hcreate|].
  exact (create_then_delete_restores _ _ _ _ _ _ _ _ _ _ new_id Hcreate
           eq_refl eq_refl).
Defined.

Lemma create_current_is_active_witness :
  is_Some (find_one (VStr "alice") (teachers_collection db)) ∧
  parse_date (VStr "2099-01-01") = Some (mkdate 2099 1 1) ∧
  date_ge (mkdate 2099 1 1) today = true ∧
  (∀ start, parse_date (of_optional None) = Some start →
            date_gt start (mkdate 2099 1 1) = false ∧ date_gt start today = false) ∧
  ∃ resp db' out,
    create_announcement db "2026-11-03T10:00:00" 6%N "Exam Notice" "Midterm moved"
      "2099-01-01" None "alice" = (Ok resp, db') ∧
    list_active_announcements today db' = Ok out ∧
    resp ∈ out.
Proof.
  assert (∀ start, parse_date (ObjectId:=N) (of_optional None) = Some start →
                   date_gt start (mkdate 2099 1 1) = false
                   ∧ date_gt start today = false) as Hstart by discriminate.
  split; [exact alice_is_teacher|]. split; [reflexivity|]. split; [reflexivity|].
  split; [exact Hstart|].
  exact (create_current_is_active db "2026-11-03T10:00:00" 6%N "Exam Notice"
           "Midterm moved" "2099-01-01" None "alice" (mkdate 2099 1 1) today
           alice_is_teacher eq_refl eq_refl Hstart).
Defined.


Lemma sample_update :
  ∃ resp db',
    update_announcement db exam_notice_id (Some "") None (Some "2099-02-01")
      (Some "") "alice" = (Ok resp, db').
Proof. eexists _, _. reflexivity. Defined.

Lemma update_field_by_field_witness :
  ObjectId_parse exam_notice_id = Some 1%N ∧
  find_one (VOid 1%N) (announcements_collection db) = Some exam_notice ∧
  ∃ resp db' ann',
    update_announcement db exam_notice_id (Some "") None (Some "2099-02-01")
      (Some "") "alice" = (Ok resp, db') ∧
    find_one (VOid 1%N) (announcements_collection db') = Some ann' ∧
    resp = serialize_ann ann' ∧
    ann' !! "title" = Some (VStr "") ∧
    ann' !! "message" = exam_notice !! "message" ∧
    ann' !! "expire_date" = Some (VStr "2099-02-01") ∧
    ann' !! "start_date" = Some VNone ∧
    (∀ k, k ≠ "title" → k ≠ "message" → k ≠ "expire_date" → k ≠ "start_date" →
          ann' !! k = exam_notice !! k).
Proof.
  split; [reflexivity|]. split; [reflexivity|].
  destruct sample_update as (resp & db' & Hupd).
  destruct (update_field_by_field _ _ _ _ _ _ _ _ _ 1%N exam_notice Hupd
              eq_refl eq_refl) as (ann' & Hann').
  exists resp, db', ann'. split; [exact Hupd|]. exact Hann'.
Defined.

Lemma update_other_records_untouched_witness :
  ObjectId_parse exam_notice_id = Some 1%N ∧
  VOid 2%N ≠ VOid 1%N ∧
  let r := update_announcement db exam_notice_id (Some "Exam moved") None None None
             "alice" in
  length (announcements_collection r.2) = length (announcements_collection db) ∧
  find_one (VOid 2%N) (announcements_collection r.2)
  = find_one (VOid 2%N) (announcements_collection db).
Proof.
  assert (VOid 2%N ≠ @VOid N 1%N) as Hne by discriminate.
  split; [reflexivity|]. split; [exact Hne|].
  exact (update_other_records_untouched db exam_notice_id (Some "Exam moved") None
           None None "alice" 1%N (VOid 2%N) eq_refl Hne).
Defined.

Lemma update_no_updates_iff_witness :
  is_Some (find_one (VStr "alice") (teachers_collection db)) ∧
  ObjectId_parse exam_notice_id = Some 1%N ∧
  find_one (VOid 1%N) (announcements_collection db) = Some exam_notice ∧
  ((update_announcement db exam_notice_id (Some "") None None None "alice").1
   = Raise (BadRequest "No updates provided")
   ↔ Some "" = None ∧ (None : option string) = None
     ∧ (None : option string) = None ∧ (None : option string) = None).
Proof.
  split; [exact alice_is_teacher|]. split; [reflexivity|]. split; [reflexivity|].
  exact (update_no_updates_iff db exam_notice_id (Some "") None None None "alice"
           1%N exam_notice alice_is_teacher eq_refl eq_refl).
Defined.

Lemma update_failure_leaves_database_witness :
  (update_announcement db unused_id (Some "Exam moved") None None None "alice").1
  = Raise (NotFound "Announcement not found") ∧
  (update_announcement db unused_id (Some "Exam moved") None None None "alice").2 = db ∧
  ∃ status detail, NotFound "Announcement not found" = HTTPException status detail.
Proof.
  split; [reflexivity|].
  exact (update_failure_leaves_database db unused_id (Some "Exam moved") None None
           None "alice" (NotFound "Announcement not found") eq_refl).
Defined.

Lemma next_term_found :
  find_one (VOid 3%N) (announcements_collection db) = Some next_term.
Proof. reflexivity. Defined.

Lemma update_expire_date_witness :
  is_Some (find_one (VStr "alice") (teachers_collection db)) ∧
  ObjectId_parse "000000000000000000000003" = Some 3%N ∧
  find_one (VOid 3%N) (announcements_collection db) = Some next_term ∧
  parse_date (VStr "soon") = None ∧
  is_Some (parse_date (VStr "2090-01-01")) ∧
  update_announcement db "000000000000000000000003" (Some "Next term") None
    (Some "soon") (Some "also soon") "alice"
  = (Raise (BadRequest "Invalid expire_date format"), db) ∧
  ∃ ann' db',
    update_announcement db "000000000000000000000003" None None
      (Some "2090-01-01") None "alice" = (Ok (serialize_ann ann'), db') ∧
    find_one (VOid 3%N) (announcements_collection db') = Some ann' ∧
    ann' !! "expire_date" = Some (VStr "2090-01-01") ∧
    ann' !! "start_date" = Some (VStr "2098-01-01").
Proof.
  assert (is_Some (parse_date (VStr "2090-01-01"))) as Hparse
      by (exists (mkdate 2090 1 1); reflexivity).
  split; [exact alice_is_teacher|]. split; [reflexivity|]. split; [reflexivity|].
  split; [reflexivity|]. split; [exact Hparse|]. split.
  - exact (proj1 (update_expire_date db "000000000000000000000003" (Some "Next term")
                    None "soon" (Some "also soon") "alice" 3%N next_term
                    alice_is_teacher eq_refl next_term_found) eq_refl).
  - exact (proj2 (update_expire_date db "000000000000000000000003" None None
                    "2090-01-01" None "alice" 3%N next_term
                    alice_is_teacher eq_refl next_term_found) Hparse).
Defined.

Lemma update_twice_witness :
  ∃ resp db',
    update_announcement db exam_notice_id (Some "") None (Some "2099-02-01")
      (Some "") "alice" = (Ok resp, db') ∧
    update_announcement db' exam_notice_id (Some "") None (Some "2099-02-01")
      (Some "") "alice" = (Ok resp, db').
Proof.
  destruct sample_update as (resp & db' & Hupd).
  exists resp, db'. split; [exact Hupd|].
  exact (update_twice _ _ _ _ _ _ _ _ _ Hupd).
Defined.

Lemma delete_other_records_untouched_witness :
  ObjectId_parse exam_notice_id = Some 1%N ∧
  VOid 2%N ≠ VOid 1%N ∧
  let r := delete_announcement db exam_notice_id "alice" in
  match r.1 with
  | Ok _ => S (length (announcements_collection r.2))
  | Raise _ => length (announcements_collection r.2)
  end = length (announcements_collection db) ∧
  find_one (VOid 2%N) (announcements_collection r.2)
  = find_one (VOid 2%N) (announcements_collection db).
Proof.
  assert (VOid 2%N ≠ @VOid N 1%N) as Hne by discriminate.
  split; [reflexivity|]. split; [exact Hne|].
  exact (delete_other_records_untouched db exam_notice_id "alice" 1%N (VOid 2%N)
           eq_refl Hne).
Defined.

Lemma delete_failure_modes_witness :
  is_Some (find_one (VStr "alice") (teachers_collection db)) ∧
  ObjectId_parse "not-an-id" = None ∧
  let r := delete_announcement db "not-an-id" "alice" in
  r.1 = Raise (BadRequest "Invalid announcement id") ∧ r.2 = db.
Proof.
  split; [exact alice_is_teacher|]. split; [reflexivity|]. intros r.
  destruct (delete_failure_modes db "not-an-id" "alice") as (_ & Hbad & _ & Hdb).
  assert (r.1 = Raise (BadRequest "Invalid announcement id")) as Hr
      by exact (proj2 Hbad (conj alice_is_teacher eq_refl)).
  split; [exact Hr|]. exact (Hdb _ Hr).
Defined.

Lemma handlers_keep_unique_ids_witness :
  unique_ids (announcements_collection db) ∧
  find_one (VOid 6%N) (announcements_collection db) = None ∧
  unique_ids
    (announcements_collection
       (create_announcement db "2026-11-03T10:00:00" 6%N "Exam Notice"
          "Midterm moved" "2099-01-01" None "alice").2) ∧
  unique_ids
    (announcements_collection
       (update_announcement db exam_notice_id (Some "Exam moved") None None None
          "alice").2) ∧
  unique_ids (announcements_collection (delete_announcement db exam_notice_id "alice").2).
Proof.
  split; [exact sample_unique_ids|]. split; [reflexivity|].
  destruct (handlers_keep_unique_ids db "2026-11-03T10:00:00" 6%N exam_notice_id
              "Exam Notice" "Midterm moved" "2099-01-01" (Some "Exam moved") None
              None None "alice" sample_unique_ids) as (Hcreate & Hupdate & Hdelete).
  split; [exact (Hcreate eq_refl)|]. split; [exact Hupdate|exact Hdelete].
Defined.


Lemma list_announcements_complete_witness :
  exam_notice ∈ announcements_collection db ∧
  serialize_ann exam_notice ∈ list_announcements db ∧
  length (list_announcements db) = 5.
Proof.
  assert (exam_notice ∈ announcements_collection db) as Hin by by_computation.
  destruct (list_announcements_complete db) as (_ & Hlen & Hmem).
  split; [exact Hin|]. split; [|exact Hlen].
  apply Hmem. exists exam_notice. split; [exact Hin|reflexivity].
Defined.

Lemma list_active_within_list_all_witness :
  ∃ out, list_active_announcements today db = Ok out ∧
         serialize_ann exam_notice ∈ out ∧
         serialize_ann exam_notice ∈ list_announcements db.
Proof.
  destruct (list_active_within_list_all today db) as (out & Hout & Hsub).
  exists out. split; [exact Hout|].
  assert (serialize_ann exam_notice ∈ out) as Hin.
  { assert (list_active_announcements today db
            = Ok [serialize_ann field_trip; serialize_ann exam_notice]) as Hval
        by reflexivity.
    rewrite Hval in Hout. injection Hout as <-. right. left. }
  split; [exact Hin|]. exact (Hsub _ Hin).
Defined.

End OnSample.
